(** * gitleaks_detection.py: the Invoker, the Reshaper and the command line

    A shallow embedding of [src/gitleaks_detection.py].  The script runs an
    external scanner, classifies its exit status ([run_gitleaks]), rewrites
    the scanner's report into a fixed shape ([process_output]) and turns
    every failure it handles into an error document on disk
    ([write_error_to_file]).

    Modelling decisions, in one place:
    - a Python [str] is a [string] of ASCII characters;
    - a Python [int] is a [Z];
    - a value produced by [json.load] is a [json] tree; a [dict] is an
      association list in insertion order, looked up by its first binding;
    - the world is a finite map from paths to what they name, a regular file
      or a directory; a regular file is represented by what [json.load]
      makes of its text.  The hierarchy above a path is not part of the
      world: [mkdir(parents=True, exist_ok=True)] always succeeds;
    - exceptions are values; a computation is a function from the world to
      a new world and either a result or a raised exception;
    - [subprocess.run] and [argparse] are libraries: they are parameters;
    - the logger writes to the console and to its own log file only; it is
      left out, and so is the log file: the world holds the paths the script
      is given, not the ones it makes for itself;
    - a path is its spelling (the empty one apart): two spellings of one
      file are two paths of the world;
    - a regular file is a text [json.load] reads, or one on which it raises
      [JSONDecodeError]; the other ways in which the loading of a text can
      fail (bytes that are no text, a number beyond the digit limit of the
      interpreter) are not in the world;
    - exit statuses are those of a POSIX system: the low eight bits of the
      argument of [sys.exit]. *)

From stdpp Require Import base strings gmap list pretty.
From Stdlib Require Import Ascii ZArith Lia.

Local Open Scope Z_scope.
Local Open Scope string_scope.

(** ** Python strings *)

Module PyStr.

(** [s.startswith(p)] *)
Fixpoint startswith (p s : string) : bool :=
  match p, s with
  | EmptyString, _ => true
  | String a p', String b s' => if decide (a = b) then startswith p' s' else false
  | String _ _, EmptyString => false
  end.

(** [p in s] *)
Fixpoint contains (p s : string) : bool :=
  startswith p s ||
  match s with
  | EmptyString => false
  | String _ s' => contains p s'
  end.

(** [s[n:]] *)
Fixpoint drop (n : nat) (s : string) : string :=
  match n, s with
  | O, _ => s
  | S n', String _ s' => drop n' s'
  | S _, EmptyString => EmptyString
  end.

(** [s.partition(sep)], [None] when [sep] does not occur: the text before
    the first occurrence of [sep] and the text after it. *)
Fixpoint partition (sep s : string) : option (string * string) :=
  if startswith sep s then Some (EmptyString, drop (String.length sep) s)
  else match s with
       | EmptyString => None
       | String c s' =>
           match partition sep s' with
           | Some (b, a) => Some (String c b, a)
           | None => None
           end
       end.

(** [s.split(sep)] for a non-empty [sep]: cut at the first occurrence, go on
    with what follows it.  Every cut consumes a character, so the length of
    [s] bounds the number of cuts. *)
Fixpoint split_upto (n : nat) (sep s : string) : list string :=
  match n with
  | O => [s]
  | S n' =>
      match partition sep s with
      | None => [s]
      | Some (b, a) => b :: split_upto n' sep a
      end
  end.

Definition split (sep s : string) : list string :=
  split_upto (String.length s) sep s.

(** [l[-1]] and [l[0]] on the lists [split] returns, which are never empty. *)
Definition item_last (l : list string) : string := default EmptyString (last l).
Definition item_first (l : list string) : string := default EmptyString (head l).

(** [c.isspace()] on ASCII: tab, line feed, vertical tab, form feed,
    carriage return, the four separators 0x1c-0x1f and the space. *)
Definition isspace (c : ascii) : bool :=
  let n := nat_of_ascii c in
  ((9 <=? n)%nat && (n <=? 13)%nat) || ((28 <=? n)%nat && (n <=? 32)%nat).

Fixpoint lstrip (s : string) : string :=
  match s with
  | EmptyString => EmptyString
  | String c s' => if isspace c then lstrip s' else s
  end.

Fixpoint rstrip (s : string) : string :=
  match s with
  | EmptyString => EmptyString
  | String c s' =>
      match rstrip s' with
      | EmptyString => if isspace c then EmptyString else String c EmptyString
      | r => String c r
      end
  end.

(** The line break. *)
Definition LF : string := String (ascii_of_nat 10) EmptyString.

(** [s.strip()] *)
Definition strip (s : string) : string := rstrip (lstrip s).

(** Truthiness of a [str]. *)
Definition truthy (s : string) : bool :=
  match s with EmptyString => false | _ => true end.

End PyStr.

(** ** JSON values, as [json.load] returns them *)

#[warnings="-register-all"]
Inductive json : Type :=
  | JNull
  | JBool (b : bool)
  | JInt (n : Z)
  | JFloat (repr : string)   (* a float, carried by its [repr] *)
  | JStr (s : string)
  | JArr (items : list json)
  | JObj (members : list (string * json)).

(** [d.get(k)] on a [dict]: [None] when the key is missing. *)
Fixpoint dict_get (k : string) (members : list (string * json)) : option json :=
  match members with
  | [] => None
  | (k', v) :: rest => if decide (k = k') then Some v else dict_get k rest
  end.

(** ** Pydantic models *)

Record Finding := mkFinding {
  filename : string;
  line_range : string;
  description : string
}.

Record ErrorModel := mkErrorModel {
  exit_code : Z;
  error_message : string
}.

(** [model_dump()]: the fields, in the order of their declaration. *)
Definition Finding_model_dump (f : Finding) : json :=
  JObj [("filename", JStr (filename f));
        ("line_range", JStr (line_range f));
        ("description", JStr (description f))].

Definition ErrorModel_model_dump (e : ErrorModel) : json :=
  JObj [("exit_code", JInt (exit_code e));
        ("error_message", JStr (error_message e))].

(** ** Exceptions and results *)

Inductive exn : Type :=
  | SystemExit (code : Z)
  | CalledProcessError (returncode : Z) (cmd : list string) (output : string)
  | FileNotFoundError (path : string)
  | IsADirectoryError (path : string)
  | JSONDecodeError
  | TypeError
  | KeyError (key : string)
  | ValidationError (errors : list (string * json)).

Inductive result (A : Type) : Type :=
  | Ret (a : A)
  | Raise (e : exn).
Arguments Ret {A} a.
Arguments Raise {A} e.

(** The status the interpreter hands to the operating system: 0 at the end
    of the script, the low eight bits of the argument of [sys.exit] (a
    process killed by signal 9 has return code -9; passed on, it gives
    247), 1 after a traceback. *)
Definition exit_status {A : Type} (r : result A) : Z :=
  match r with
  | Ret _ => 0
  | Raise (SystemExit c) => c mod 256
  | Raise _ => 1
  end.

(** ** The world: paths and what they name *)

Inductive content : Type :=
  | JsonText (j : json)        (* a text that [json.load] reads as [j] *)
  | NotJson (raw : string).    (* a text on which [json.load] raises *)

Inductive node : Type :=
  | File (c : content)
  | Dir.

Abbreviation world := (gmap string node).

(** A computation: state passing over the world, with exceptions. *)
Definition M (A : Type) : Type := world -> world * result A.

Definition ret {A : Type} (a : A) : M A := fun w => (w, Ret a).

Definition raise {A : Type} (e : exn) : M A := fun w => (w, Raise e).

Definition bind {A B : Type} (m : M A) (k : A -> M B) : M B :=
  fun w =>
    match m w with
    | (w', Ret a) => k a w'
    | (w', Raise e) => (w', Raise e)
    end.

Definition lift {A : Type} (r : result A) : M A := fun w => (w, r).

(** [try: body except ... as e: handler]; the handler is defined on the
    exceptions the clause names. *)
Definition try_except {A : Type} (body : M A) (handler : exn -> option (M A)) : M A :=
  fun w =>
    match body w with
    | (w', Ret a) => (w', Ret a)
    | (w', Raise e) =>
        match handler e with
        | Some h => h w'
        | None => (w', Raise e)
        end
    end.

Declare Scope py_scope.
Delimit Scope py_scope with py.
Notation "x ← y ; z" := (bind y (fun x => z))
  (at level 20, y at level 100, z at level 200, only parsing) : py_scope.
Notation "x ;; z" := (bind x (fun _ => z))
  (at level 100, z at level 200, only parsing, right associativity) : py_scope.
Local Open Scope py_scope.

(** [sys.exit(code)] *)
Definition sys_exit {A : Type} (code : Z) : M A := raise (SystemExit code).

(** [Path(s)]: pathlib reads the empty string as the current directory;
    otherwise a path is identified with its spelling. *)
Definition Path (s : string) : string :=
  match s with
  | EmptyString => "."
  | _ => s
  end.

(** [p.is_file()] and [p.exists()] *)
Definition is_file (p : string) : M bool :=
  fun w => (w, Ret match w !! p with Some (File _) => true | _ => false end).

Definition path_exists (p : string) : M bool :=
  fun w => (w, Ret match w !! p with Some _ => true | None => false end).

(** [p.parent.mkdir(parents=True, exist_ok=True)] *)
Definition mkdir_parent (p : string) : M unit := ret tt.

(** [with p.open("w") as f: json.dump(j, f)]: the file is replaced as a
    whole; a directory cannot be opened. *)
Definition dump_to (p : string) (j : json) : M unit :=
  fun w =>
    match w !! p with
    | Some Dir => (w, Raise (IsADirectoryError p))
    | _ => (<[p := File (JsonText j)]> w, Ret tt)
    end.

(** [with p.open("r") as f: json.load(f)] *)
Definition load_from (p : string) : M json :=
  fun w =>
    match w !! p with
    | None => (w, Raise (FileNotFoundError p))
    | Some Dir => (w, Raise (IsADirectoryError p))
    | Some (File (NotJson _)) => (w, Raise JSONDecodeError)
    | Some (File (JsonText j)) => (w, Ret j)
    end.

(** ** The external process and the command line, as the libraries give them *)

Record CompletedProcess := mkCompletedProcess {
  cp_returncode : Z;
  cp_stdout : string;
  cp_stderr : string
}.

Record Namespace := mkNamespace {
  ns_command : string;
  ns_subcommand : string;
  ns_source : option string;
  ns_report_path : string;
  ns_additional : list string
}.

(** What [ArgumentParser.parse_args] does with an argument vector: it
    returns a namespace, calls [self.error(message)], or leaves through
    [self.exit] (after [-h], with status 0). *)
Inductive parse_outcome : Type :=
  | Parsed (args : Namespace)
  | ParserError (message : string)
  | ParserExit (status : Z).

(** The libraries the script calls.
    - [subprocess_run args]: [subprocess.run(args, capture_output=True,
      text=True)]; it may change the world (the scanner writes its report)
      and may raise (the program is not installed);
    - [argparse_parse argv]: [parse_args] over the declarations of
      [parse_arguments];
    - [validation_error_str]: [str] of a pydantic [ValidationError];
    - [container_str]: [str] of a [list] or a [dict]. *)
Class Libraries := {
  subprocess_run : list string -> M CompletedProcess;
  argparse_parse : list string -> parse_outcome;
  validation_error_str : list (string * json) -> string;
  container_str : json -> string
}.

(** ** The script *)

(** The double quote, for the usage text. *)
Definition DQ : string := String (ascii_of_nat 34) EmptyString.

(** [write_error_to_file(output_path, error_model)] *)
Definition write_error_to_file (output_path : string) (error_model : ErrorModel) : M unit :=
  let output_file := Path output_path in
  mkdir_parent output_file;;
  dump_to output_file (ErrorModel_model_dump error_model).

(** The [except subprocess.CalledProcessError as e] clause of
    [run_gitleaks], for [e.returncode] and [e.output]. *)
Definition run_gitleaks_handler (output_path : string) (returncode : Z) (output : string)
  : M CompletedProcess :=
  let stderr_message :=
    if PyStr.truthy output then PyStr.strip output else "No error message captured." in
  let error :=
    if PyStr.contains "unknown flag" stderr_message then
      let unknown_flag :=
        PyStr.item_first
          (PyStr.split PyStr.LF
             (PyStr.item_last (PyStr.split "unknown flag: " stderr_message))) in
      mkErrorModel 2 ("Gitleaks scan failed: unknown argument '" +:+ unknown_flag +:+ "'.")
    else
      mkErrorModel returncode ("Gitleaks scan failed: " +:+ stderr_message) in
  write_error_to_file output_path error;;
  sys_exit returncode.

(** [run_gitleaks(args, output_path)] *)
Definition run_gitleaks `{Libraries} (args : list string) (output_path : string)
  : M CompletedProcess :=
  try_except
    (result ← subprocess_run args;
     if decide (cp_returncode result = 0) then ret result
     else if decide (cp_returncode result = 1) then ret result
     else raise (CalledProcessError (cp_returncode result) args (cp_stderr result)))
    (fun e =>
       match e with
       | CalledProcessError returncode _ output =>
           Some (run_gitleaks_handler output_path returncode output)
       | _ => None
       end).

(** [for item in raw_data]: the items a loaded value iterates over. A list
    gives its elements, a dict its keys, a string its characters; the other
    values are not iterable. *)
Definition py_iter (v : json) : result (list json) :=
  match v with
  | JArr items => Ret items
  | JObj members => Ret (map (fun kv => JStr (fst kv)) members)
  | JStr s => Ret (map (fun c => JStr (String c EmptyString)) (String.list_ascii_of_string s))
  | _ => Raise TypeError
  end.

(** [item[key]] for a string [key]: only a dict can be indexed this way. *)
Definition getitem (item : json) (key : string) : result json :=
  match item with
  | JObj members =>
      match dict_get key members with
      | Some v => Ret v
      | None => Raise (KeyError key)
      end
  | _ => Raise TypeError
  end.

(** [f"{v}"]: [str] of a loaded value. *)
Definition py_str `{Libraries} (v : json) : string :=
  match v with
  | JStr s => s
  | JInt n => pretty n
  | JFloat repr => repr
  | JBool true => "True"
  | JBool false => "False"
  | JNull => "None"
  | JArr _ | JObj _ => container_str v
  end.

(** Validation of a [str] field: pydantic accepts a string only. *)
Definition str_field_errors (name : string) (v : json) : list (string * json) :=
  match v with
  | JStr _ => []
  | _ => [(name, v)]
  end.

(** [Finding(filename=..., line_range=..., description=...)]: every field is
    validated and the errors are reported together. *)
Definition Finding_new (filename_ : json) (line_range_ : string) (description_ : json)
  : result Finding :=
  match filename_, description_ with
  | JStr f, JStr d => Ret (mkFinding f line_range_ d)
  | _, _ =>
      Raise (ValidationError
               (str_field_errors "filename" filename_
                ++ str_field_errors "description" description_))
  end.

(** The element expression of the comprehension in [process_output]:
    the four subscripts in the order they are written, then the model. *)
Definition reshape_item `{Libraries} (item : json) : result json :=
  match getitem item "File" with
  | Raise e => Raise e
  | Ret file =>
      match getitem item "StartLine" with
      | Raise e => Raise e
      | Ret start_line =>
          match getitem item "EndLine" with
          | Raise e => Raise e
          | Ret end_line =>
              match getitem item "Description" with
              | Raise e => Raise e
              | Ret descr =>
                  match Finding_new file (py_str start_line +:+ "-" +:+ py_str end_line) descr with
                  | Raise e => Raise e
                  | Ret finding => Ret (Finding_model_dump finding)
                  end
              end
          end
      end
  end.

(** [[f(item) for item in items]]: left to right, stopping at the first
    exception. *)
Fixpoint comprehension (f : json -> result json) (items : list json) : result (list json) :=
  match items with
  | [] => Ret []
  | item :: rest =>
      match f item with
      | Raise e => Raise e
      | Ret x =>
          match comprehension f rest with
          | Raise e => Raise e
          | Ret xs => Ret (x :: xs)
          end
      end
  end.

(** [str(e)] for the exceptions [process_output] catches. A [KeyError]
    shows the [repr] of its key, which for the four key names is the name
    between single quotes. *)
Definition exn_str `{Libraries} (e : exn) : string :=
  match e with
  | KeyError key => "'" +:+ key +:+ "'"
  | ValidationError errors => validation_error_str errors
  | FileNotFoundError path => "[Errno 2] No such file or directory: '" +:+ path +:+ "'"
  | _ => EmptyString
  end.

(** The body of the [try] in [process_output]. *)
Definition process_output_body `{Libraries} (output_path : string) : M unit :=
  let output_file := Path output_path in
  present ← is_file output_file;
  (if negb present then
     mkdir_parent output_file;;
     dump_to output_file (JArr [])
   else ret tt);;
  raw_data ← load_from output_file;
  items ← lift (py_iter raw_data);
  findings ← lift (comprehension reshape_item items);
  let structured_output := JObj [("findings", JArr findings)] in
  dump_to output_file structured_output.

(** [process_output(output_path)] *)
Definition process_output `{Libraries} (output_path : string) : M unit :=
  try_except
    (process_output_body output_path)
    (fun e =>
       match e with
       | FileNotFoundError _ | ValidationError _ | KeyError _ =>
           Some (let error := mkErrorModel 1 (exn_str e) in
                 write_error_to_file output_path error;;
                 sys_exit 1)
       | _ => None
       end).

(** [CustomArgumentParser.error(message)] *)
Definition additional_message : string :=
  "Please provide the arguments like this:" +:+ PyStr.LF +:+ " "
  +:+ "--source " +:+ DQ +:+ "the source path" +:+ DQ
  +:+ " --report-path " +:+ DQ +:+ "the report path" +:+ DQ +:+ " {gitleaks command} "
  +:+ "gitleaks subcommand (e.g., detect, protect, etc.) additional args (e.g --no-git)".

Definition CustomArgumentParser_error {A : Type} (message : string) : M A :=
  let full_message :=
    message +:+ " " +:+ PyStr.LF +:+ PyStr.LF +:+ " " +:+ additional_message in
  let error := mkErrorModel 2 ("Gitleaks scan failed: " +:+ full_message) in
  write_error_to_file "output.json" error;;
  sys_exit 2.

(** [parse_arguments()] on the argument vector of the process. *)
Definition parse_arguments `{Libraries} (argv : list string) : M Namespace :=
  match argparse_parse argv with
  | Parsed args => ret args
  | ParserError message => CustomArgumentParser_error message
  | ParserExit status => sys_exit status
  end.

(** [args.source or None]: an empty string counts as no source. *)
Definition source_or_None (source : option string) : option string :=
  match source with
  | Some s => if PyStr.truthy s then Some s else None
  | None => None
  end.

(** The validation of the source in the main block. *)
Definition validate_source (args : Namespace) : M unit :=
  match source_or_None (ns_source args) with
  | None =>
      let error :=
        mkErrorModel 2 "Gitleaks scan failed: please provide a source folder" in
      write_error_to_file "output.json" error;;
      sys_exit 2
  | Some source =>
      found ← path_exists (Path source);
      if negb found then
        let error :=
          mkErrorModel 2 "Gitleaks scan failed: please provide a valid source folder" in
        write_error_to_file "output.json" error;;
        sys_exit 2
      else ret tt
  end.

(** [str(args.source)] *)
Definition str_source (source : option string) : string :=
  match source with
  | Some s => s
  | None => "None"
  end.

(** The argument vector handed to the scanner. *)
Definition gitleaks_args (args : Namespace) : list string :=
  [ns_command args; ns_subcommand args;
   "--source"; str_source (ns_source args);
   "--report-path"; ns_report_path args]
  ++ ns_additional args.

(** The main block. *)
Definition main `{Libraries} (argv : list string) : M unit :=
  args ← parse_arguments argv;
  validate_source args;;
  mkdir_parent (Path (ns_report_path args));;
  run_gitleaks (gitleaks_args args) (ns_report_path args);;
  process_output (ns_report_path args).

(** ** The documents and records the specification speaks of *)

(** The file at [p] holds exactly one JSON document, [j]. *)
Definition holds (w : world) (p : string) (j : json) : Prop :=
  w !! p = Some (File (JsonText j)).

Inductive NormalizedFinding : json -> Prop :=
  | normalized_finding (file range descr : string) :
      NormalizedFinding
        (JObj [("filename", JStr file); ("line_range", JStr range);
               ("description", JStr descr)]).

Inductive ReportDocument : json -> Prop :=
  | report_document (findings : list json) :
      Forall NormalizedFinding findings ->
      ReportDocument (JObj [("findings", JArr findings)]).

Inductive ErrorDocument : json -> Prop :=
  | error_document (code : Z) (message : string) :
      ErrorDocument (JObj [("exit_code", JInt code); ("error_message", JStr message)]).

(** The error document with a given code and message. *)
Definition error_doc (code : Z) (message : string) : json :=
  JObj [("exit_code", JInt code); ("error_message", JStr message)].

(** The report document with given findings. *)
Definition report_doc (findings : list json) : json :=
  JObj [("findings", JArr findings)].

Definition is_object (v : json) : Prop := exists members, v = JObj members.

Definition is_str (v : json) : bool :=
  match v with
  | JStr _ => true
  | _ => false
  end.

(** A record carrying [File] (a string), [StartLine], [EndLine] and
    [Description] (a string), and the normalized finding made of it. *)
Definition reshapes_to `{Libraries} (record out : json) : Prop :=
  exists members file start_line end_line descr,
    record = JObj members /\
    dict_get "File" members = Some (JStr file) /\
    dict_get "StartLine" members = Some start_line /\
    dict_get "EndLine" members = Some end_line /\
    dict_get "Description" members = Some (JStr descr) /\
    out = JObj [("filename", JStr file);
                ("line_range", JStr (py_str start_line +:+ "-" +:+ py_str end_line));
                ("description", JStr descr)].

Definition RawFinding `{Libraries} (record : json) : Prop :=
  exists out, reshapes_to record out.

(** The keys of a record, in the order the Reshaper reads them. *)
Definition required_keys : list string :=
  ["File"; "StartLine"; "EndLine"; "Description"].

(** A record, a JSON object, that fails validation, with the description of
    the failure: the first required key it lacks, or, when it has all four,
    the fields that should be strings and are not. *)
Inductive record_failure `{Libraries} : json -> string -> Prop :=
  | missing_key (members : list (string * json)) (before : list string)
      (key : string) (after : list string) :
      required_keys = (before ++ key :: after)%list ->
      Forall (fun k => is_Some (dict_get k members)) before ->
      dict_get key members = None ->
      record_failure (JObj members) ("'" +:+ key +:+ "'")
  | field_type (members : list (string * json)) (file start_line end_line descr : json) :
      dict_get "File" members = Some file ->
      dict_get "StartLine" members = Some start_line ->
      dict_get "EndLine" members = Some end_line ->
      dict_get "Description" members = Some descr ->
      is_str file && is_str descr = false ->
      record_failure (JObj members)
        (validation_error_str
           (List.filter (fun kv => negb (is_str (snd kv)))
              [("filename", file); ("description", descr)])).

(** An error of the command line or of the source path, with the message of
    its error document: the parser rejects the arguments; no source, or an
    empty one, is given; the source names nothing on disk. *)
Inductive config_error `{Libraries} (argv : list string) (w : world) : string -> Prop :=
  | parser_rejects (message : string) :
      argparse_parse argv = ParserError message ->
      config_error argv w
        ("Gitleaks scan failed: " +:+ message +:+ " " +:+ PyStr.LF +:+ PyStr.LF +:+ " "
         +:+ additional_message)
  | source_missing (args : Namespace) :
      argparse_parse argv = Parsed args ->
      ns_source args = None \/ ns_source args = Some EmptyString ->
      config_error argv w "Gitleaks scan failed: please provide a source folder"
  | source_not_found (args : Namespace) (source : string) :
      argparse_parse argv = Parsed args ->
      ns_source args = Some source ->
      source <> EmptyString ->
      w !! Path source = None ->
      config_error argv w "Gitleaks scan failed: please provide a valid source folder".

(** The exceptions the [except] clause of [process_output] names. *)
Definition caught (e : exn) : Prop :=
  match e with
  | FileNotFoundError _ | ValidationError _ | KeyError _ => True
  | _ => False
  end.

(** ** Sample libraries, for concrete runs *)

(** A scanner that exits with [code] and [err] on its standard error and
    leaves the world as it is. *)
Definition scanner_exits (code : Z) (err : string) : list string -> M CompletedProcess :=
  fun _ => ret (mkCompletedProcess code EmptyString err).

(** A scanner that writes [report] at [path] and exits with [code]. *)
Definition scanner_reports (path : string) (report : json) (code : Z)
  : list string -> M CompletedProcess :=
  fun _ w => (<[path := File (JsonText report)]> w, Ret (mkCompletedProcess code EmptyString EmptyString)).

Definition sample_libraries (run : list string -> M CompletedProcess)
  (parse : parse_outcome) : Libraries :=
  {| subprocess_run := run;
     argparse_parse := fun _ => parse;
     validation_error_str := fun errors =>
       pretty (Z.of_nat (length errors)) +:+ " validation error for Finding";
     container_str := fun _ => "[...]" |}.

Definition sample_args (source : option string) (report_path : string) : Namespace :=
  mkNamespace "gitleaks" "detect" source report_path [].

(** A record as the scanner writes it, and the finding made of it. *)
Definition sample_record : json :=
  JObj [("Description", JStr "AWS Access Key");
        ("StartLine", JInt 12);
        ("EndLine", JInt 12);
        ("File", JStr "app/config.py");
        ("Secret", JStr "AKIA")].

Definition sample_finding : json :=
  JObj [("filename", JStr "app/config.py");
        ("line_range", JStr "12-12");
        ("description", JStr "AWS Access Key")].

(** A record without [EndLine]. *)
Definition record_without_end : json :=
  JObj [("Description", JStr "AWS Access Key");
        ("StartLine", JInt 12);
        ("File", JStr "app/config.py")].

(** What the scanner prints when it is handed a flag it does not know. *)
Definition unknown_flag_stderr : string :=
  "Error: unknown flag: --jit" +:+ PyStr.LF +:+ "Usage:" +:+ PyStr.LF.

(** Libraries for a run with source [src], report path [report.json] and a
    scanner that is given. *)
Definition libs_with (run : list string -> M CompletedProcess) : Libraries :=
  sample_libraries run (Parsed (sample_args (Some "src") "report.json")).

(** A world in which the source directory [src] exists. *)
Definition world_src : world := {["src" := Dir]}.

(** A world in which the report already holds one record of the scanner. *)
Definition world_report (report : json) : world :=
  <["report.json" := File (JsonText report)]> world_src.

(** Libraries for a run whose command line gives [source] and the report
    path [custom.json], with a scanner that finds nothing. *)
Definition libs_source (source : option string) : Libraries :=
  sample_libraries (scanner_exits 0 EmptyString)
    (Parsed (sample_args source "custom.json")).

(** ** The helper of the tests, and further notions for the properties below *)

(** [read_output_file(path)] of [gitleaks_detection_tests.py]: the loaded
    document, or [None] when nothing is at the path. *)
Definition read_output_file (path : string) : M (option json) :=
  let output_path := Path path in
  found ← path_exists output_path;
  if found then
    j ← load_from output_path;
    ret (Some j)
  else ret None.

(** A text made of whitespace only (the empty text included). *)
Fixpoint only_spaces (s : string) : bool :=
  match s with
  | EmptyString => true
  | String c s' => PyStr.isspace c && only_spaces s'
  end.

(** The loaded values, other than a list, on which the loop of the Reshaper
    cannot run to its end: a value that is not iterable, a dict with a key
    (the loop sees the key, a string), a string with a character. *)
Inductive not_a_record_list : json -> Prop :=
  | nrl_null : not_a_record_list JNull
  | nrl_bool (b : bool) : not_a_record_list (JBool b)
  | nrl_int (n : Z) : not_a_record_list (JInt n)
  | nrl_float (repr : string) : not_a_record_list (JFloat repr)
  | nrl_dict (k : string) (v : json) (rest : list (string * json)) :
      not_a_record_list (JObj ((k, v) :: rest))
  | nrl_str (c : ascii) (s : string) : not_a_record_list (JStr (String c s)).

(** A scanner that cannot be started. *)
Definition scanner_missing : list string -> M CompletedProcess :=
  fun _ => raise (FileNotFoundError "gitleaks").

(** A record whose [File] is a number. *)
Definition record_bad_file : json :=
  JObj [("File", JInt 7); ("StartLine", JInt 1); ("EndLine", JInt 2);
        ("Description", JStr "token")].

(** ** Facts about the string operations *)

Module PyStrFacts.
Import PyStr.

Lemma app_nil_l (s : string) : EmptyString +:+ s = s.
Proof. reflexivity. Qed.

Lemma app_cons (c : ascii) (s t : string) : String c s +:+ t = String c (s +:+ t).
Proof. reflexivity. Qed.

Lemma app_nil_r (s : string) : s +:+ EmptyString = s.
Proof. induction s as [|c s IH]; [reflexivity|]. rewrite app_cons, IH. reflexivity. Qed.

Lemma app_assoc (s t u : string) : (s +:+ t) +:+ u = s +:+ (t +:+ u).
Proof.
  induction s as [|c s IH]; [reflexivity|].
  rewrite !app_cons, IH. reflexivity.
Qed.

Lemma length_app (s t : string) :
  String.length (s +:+ t) = (String.length s + String.length t)%nat.
Proof.
  induction s as [|c s IH]; [reflexivity|].
  rewrite app_cons. simpl. rewrite IH. reflexivity.
Qed.

(** Two ways of cutting one string: one cut is inside the other's prefix. *)
Lemma app_eq_app (u v u' v' : string) :
  u +:+ v = u' +:+ v' ->
  (exists t, u' = u +:+ t /\ v = t +:+ v') \/ (exists t, u = u' +:+ t /\ v' = t +:+ v).
Proof.
  revert u'. induction u as [|c u IH]; intros u' E.
  - left. exists u'. split; [reflexivity|exact E].
  - destruct u' as [|c' u'].
    + right. exists (String c u). split; [reflexivity|]. symmetry. exact E.
    + rewrite !app_cons in E. injection E as -> E.
      destruct (IH _ E) as [[t [-> ->]]|[t [-> ->]]].
      * left. exists t. split; reflexivity.
      * right. exists t. split; reflexivity.
Qed.

Lemma drop_app (p r : string) : drop (String.length p) (p +:+ r) = r.
Proof. induction p as [|c p IH]; [reflexivity|]. rewrite app_cons. simpl. exact IH. Qed.

Lemma startswith_app (p r : string) : startswith p (p +:+ r) = true.
Proof.
  induction p as [|c p IH]; [reflexivity|].
  rewrite app_cons. simpl. rewrite decide_True by reflexivity. exact IH.
Qed.

Lemma startswith_inv (p s : string) :
  startswith p s = true -> exists r, s = p +:+ r.
Proof.
  revert s. induction p as [|c p IH]; intros s H.
  - exists s. reflexivity.
  - destruct s as [|d s]; [discriminate|]. simpl in H.
    destruct (decide (c = d)) as [->|]; [|discriminate].
    destruct (IH _ H) as [r ->]. exists r. reflexivity.
Qed.

Lemma contains_intro (a p b : string) : contains p (a +:+ p +:+ b) = true.
Proof.
  induction a as [|c a IH].
  - rewrite app_nil_l. destruct (p +:+ b) eqn:E; simpl;
      rewrite <- E, startswith_app; reflexivity.
  - rewrite app_cons. simpl. rewrite IH. apply orb_true_r.
Qed.

Lemma contains_elim (p s : string) :
  contains p s = true -> exists a b, s = a +:+ p +:+ b.
Proof.
  induction s as [|c s IH]; simpl; intros H.
  - rewrite orb_false_r in H. destruct (startswith_inv _ _ H) as [r ->].
    exists EmptyString, r. reflexivity.
  - apply orb_true_iff in H as [H|H].
    + destruct (startswith_inv _ _ H) as [r ->]. exists EmptyString, r. reflexivity.
    + destruct (IH H) as (a & b & ->). exists (String c a), b. reflexivity.
Qed.

(** A text that lies inside another one brings its occurrences along. *)
Lemma contains_factor (p t a b : string) :
  contains p t = true -> contains p (a +:+ t +:+ b) = true.
Proof.
  intros H. destruct (contains_elim _ _ H) as (x & y & ->).
  replace (a +:+ (x +:+ p +:+ y) +:+ b) with ((a +:+ x) +:+ p +:+ (y +:+ b)).
  - apply contains_intro.
  - rewrite !app_assoc. reflexivity.
Qed.

Lemma partition_None (sep s : string) :
  partition sep s = None <-> contains sep s = false.
Proof.
  induction s as [|c s IH]; simpl.
  - destruct (startswith sep EmptyString); simpl; split; congruence.
  - destruct (startswith sep (String c s)); simpl; [split; congruence|].
    rewrite <- IH. destruct (partition sep s) as [[b a]|]; split; congruence.
Qed.

Lemma startswith_drop (p s : string) :
  startswith p s = true -> s = p +:+ drop (String.length p) s.
Proof.
  intros H. destruct (startswith_inv _ _ H) as [r ->].
  rewrite drop_app. reflexivity.
Qed.

Lemma partition_Some (sep s b a : string) :
  partition sep s = Some (b, a) -> s = b +:+ sep +:+ a.
Proof.
  revert b. induction s as [|c s IH]; intros b; simpl.
  - destruct (startswith sep EmptyString) eqn:E; [|discriminate].
    intros [= <- <-]. apply (startswith_drop _ _ E).
  - destruct (startswith sep (String c s)) eqn:E.
    + intros [= <- <-]. apply (startswith_drop _ _ E).
    + destruct (partition sep s) as [[b' a']|] eqn:P; [|discriminate].
      intros [= <- <-]. rewrite (IH _ eq_refl) at 1. reflexivity.
Qed.

Lemma partition_shorter (sep s b a : string) :
  partition sep s = Some (b, a) ->
  String.length s = (String.length b + String.length sep + String.length a)%nat.
Proof.
  intros H. rewrite (partition_Some _ _ _ _ H) at 1.
  rewrite !length_app. lia.
Qed.

(** The bound in [split] is never reached early: more fuel changes nothing. *)
Lemma split_upto_enough (sep : string) (n : nat) :
  sep <> EmptyString ->
  forall s, (String.length s <= n)%nat ->
  split_upto n sep s = split_upto (String.length s) sep s.
Proof.
  intros Hsep. induction n as [n IH] using lt_wf_ind. intros s Hn.
  destruct n as [|n].
  - destruct s; [reflexivity|simpl in Hn; lia].
  - simpl. destruct (partition sep s) as [[b a]|] eqn:P.
    + pose proof (partition_shorter _ _ _ _ P) as L.
      assert (0 < String.length sep)%nat
        by (destruct sep; [congruence|simpl; lia]).
      destruct (String.length s) as [|m] eqn:Ls; [lia|].
      simpl. rewrite P. f_equal.
      rewrite (IH n) by lia. rewrite (IH m) by lia. reflexivity.
    + destruct (String.length s) as [|m] eqn:Ls; [reflexivity|].
      simpl. rewrite P. reflexivity.
Qed.

(** [split] by its equation. *)
Lemma split_eq (sep s : string) :
  sep <> EmptyString ->
  split sep s =
  match partition sep s with
  | None => [s]
  | Some (b, a) => b :: split sep a
  end.
Proof.
  intros Hsep. unfold split.
  destruct (String.length s) as [|m] eqn:Ls.
  - simpl. destruct (partition sep s) as [[b a]|] eqn:P; [|reflexivity].
    pose proof (partition_shorter _ _ _ _ P).
    destruct sep; [congruence|simpl in *; lia].
  - simpl. destruct (partition sep s) as [[b a]|] eqn:P; [|reflexivity].
    f_equal. apply split_upto_enough; [exact Hsep|].
    pose proof (partition_shorter _ _ _ _ P).
    destruct sep; [congruence|simpl in *; lia].
Qed.

Lemma split_nonempty (sep s : string) : split sep s <> [].
Proof.
  unfold split. destruct (String.length s); simpl; [congruence|].
  destruct (partition sep s) as [[b a]|]; congruence.
Qed.

Lemma item_last_cons (x : string) (l : list string) :
  l <> [] -> item_last (x :: l) = item_last l.
Proof. unfold item_last. destruct l; [congruence|]. reflexivity. Qed.

(** Where the first cut falls in a text known to hold [sep] at a given
    place, for a [sep] whose first character occurs nowhere else in it
    (two occurrences of such a [sep] cannot overlap): at that place, or
    before it, and then the place is still ahead in what follows the cut. *)
Lemma partition_next (c : ascii) (sep' rest : string) :
  contains (String c EmptyString) sep' = false ->
  forall pre b a,
    partition (String c sep') (pre +:+ String c sep' +:+ rest) = Some (b, a) ->
    (b = pre /\ a = rest) \/
    (exists pre', a = pre' +:+ String c sep' +:+ rest
                  /\ (String.length pre' < String.length pre)%nat).
Proof.
  intros Hc pre. induction pre as [|x pre IH]; intros b a P.
  - rewrite app_nil_l in P.
    assert (E : startswith (String c sep') (String c sep' +:+ rest) = true)
      by apply startswith_app.
    rewrite app_cons in P, E. simpl in P, E. rewrite E in P.
    injection P as <- <-. left. split; [reflexivity|].
    apply drop_app.
  - rewrite app_cons in P. simpl in P.
    destruct (decide (c = x)) as [<-|Hx].
    + destruct (startswith sep' (pre +:+ String c sep' +:+ rest)) eqn:E.
      * injection P as <- <-. right.
        destruct (startswith_inv _ _ E) as [r Er]. rewrite Er, drop_app.
        destruct (app_eq_app _ _ _ _ Er) as [[t [Hs Ht]]|[t [Hp Hr]]].
        -- destruct t as [|d t].
           ++ rewrite app_nil_l in Ht. exists EmptyString. split.
              ** rewrite app_nil_l. symmetry. exact Ht.
              ** simpl. lia.
           ++ rewrite !app_cons in Ht. injection Ht as <- _.
              exfalso. rewrite Hs in Hc.
              pose proof (contains_intro pre (String c EmptyString) t) as Hin.
              rewrite app_cons, app_nil_l in Hin. congruence.
        -- exists t. split; [exact Hr|].
           simpl. rewrite Hp, length_app. lia.
      * destruct (partition (String c sep') (pre +:+ String c sep' +:+ rest))
          as [[b' a']|] eqn:P'; [|discriminate].
        injection P as <- <-.
        destruct (IH _ _ eq_refl) as [[-> ->]|(pre' & -> & L)].
        -- left. split; reflexivity.
        -- right. exists pre'. split; [reflexivity|simpl; lia].
    + destruct (partition (String c sep') (pre +:+ String c sep' +:+ rest))
        as [[b' a']|] eqn:P'; [|discriminate].
      injection P as <- <-.
      destruct (IH _ _ eq_refl) as [[-> ->]|(pre' & -> & L)].
      * left. split; reflexivity.
      * right. exists pre'. split; [reflexivity|simpl; lia].
Qed.

(** [s.split(sep)[-1]] is the text after the last occurrence of [sep]. *)
Lemma split_last_after (c : ascii) (sep' rest : string) :
  contains (String c EmptyString) sep' = false ->
  contains (String c sep') rest = false ->
  forall pre, item_last (split (String c sep') (pre +:+ String c sep' +:+ rest)) = rest.
Proof.
  intros Hc Hrest pre.
  remember (String.length pre) as n eqn:Hn.
  revert pre Hn. induction n as [n IH] using lt_wf_ind. intros pre Hn.
  rewrite split_eq by congruence.
  destruct (partition (String c sep') (pre +:+ String c sep' +:+ rest))
    as [[b a]|] eqn:P.
  - rewrite item_last_cons by apply split_nonempty.
    destruct (partition_next _ _ _ Hc _ _ _ P) as [[-> ->]|(pre' & -> & L)].
    + rewrite split_eq by congruence.
      apply partition_None in Hrest. rewrite Hrest. reflexivity.
    + apply (IH (String.length pre')); [lia|reflexivity].
  - apply partition_None in P. rewrite contains_intro in P. discriminate.
Qed.

(** [s.split(c)[0]] for a one-character [c] is the text before its first
    occurrence, the whole text when there is none. *)
Lemma split_first_line (c : ascii) (line : string) :
  contains (String c EmptyString) line = false ->
  forall more,
    item_first (split (String c EmptyString) line) = line /\
    item_first (split (String c EmptyString) (line +:+ String c more)) = line.
Proof.
  intros H more. split.
  - rewrite split_eq by congruence.
    apply partition_None in H. rewrite H. reflexivity.
  - rewrite split_eq by congruence.
    assert (P : partition (String c EmptyString) (line +:+ String c more)
                = Some (line, more)).
    { clear -H. induction line as [|x line IH].
      - rewrite app_nil_l. simpl. rewrite decide_True by reflexivity. reflexivity.
      - rewrite app_cons. simpl in H |- *.
        destruct (decide (c = x)) as [->|Hx]; [discriminate|].
        simpl in H. rewrite IH by exact H. reflexivity. }
    rewrite P. reflexivity.
Qed.

Lemma lstrip_suffix (s : string) : exists a, s = a +:+ lstrip s.
Proof.
  induction s as [|c s [a IH]]; simpl.
  - exists EmptyString. reflexivity.
  - destruct (isspace c).
    + exists (String c a). rewrite app_cons. f_equal. exact IH.
    + exists EmptyString. reflexivity.
Qed.

Lemma rstrip_prefix (s : string) : exists b, s = rstrip s +:+ b.
Proof.
  induction s as [|c s [b IH]]; simpl.
  - exists EmptyString. reflexivity.
  - destruct (rstrip s) as [|d r] eqn:E.
    + destruct (isspace c).
      * exists (String c s). reflexivity.
      * exists s. reflexivity.
    + exists b. rewrite app_cons. f_equal. exact IH.
Qed.

(** [s.strip()] lies inside [s]. *)
Lemma strip_factor (s : string) : exists a b, s = a +:+ strip s +:+ b.
Proof.
  unfold strip. destruct (lstrip_suffix s) as [a Ha].
  destruct (rstrip_prefix (lstrip s)) as [b Hb].
  exists a, b. rewrite <- Hb. exact Ha.
Qed.

Lemma strip_contains (p s : string) :
  contains p s = false -> contains p (strip s) = false.
Proof.
  intros H. destruct (contains p (strip s)) eqn:E; [|reflexivity].
  destruct (strip_factor s) as (a & b & Hs).
  pose proof (contains_factor p (strip s) a b E) as F.
  rewrite <- Hs in F. congruence.
Qed.

End PyStrFacts.

(** ** The error document on disk *)

Section Script.
Context `{Libraries}.
Import PyStr PyStrFacts.

Lemma write_error_to_file_ok (p : string) (e : ErrorModel) (w : world) :
  w !! Path p <> Some Dir ->
  write_error_to_file p e w
  = (<[Path p := File (JsonText (ErrorModel_model_dump e))]> w, Ret tt).
Proof.
  intros Hp. unfold write_error_to_file, mkdir_parent, bind, ret, dump_to.
  destruct (w !! Path p) as [[c|]|]; [reflexivity|congruence|reflexivity].
Qed.

(** ** The Invoker *)

Lemma run_gitleaks_continues (args : list string) (p : string) (w w1 : world)
  (cp : CompletedProcess) :
  subprocess_run args w = (w1, Ret cp) ->
  cp_returncode cp = 0 \/ cp_returncode cp = 1 ->
  run_gitleaks args p w = (w1, Ret cp).
Proof.
  intros Hrun Hrc. unfold run_gitleaks, try_except, bind. rewrite Hrun.
  destruct (decide (cp_returncode cp = 0)); [reflexivity|].
  destruct (decide (cp_returncode cp = 1)); [reflexivity|].
  destruct Hrc; contradiction.
Qed.

Lemma run_gitleaks_fails (args : list string) (p : string) (w w1 : world)
  (cp : CompletedProcess) :
  subprocess_run args w = (w1, Ret cp) ->
  cp_returncode cp <> 0 ->
  cp_returncode cp <> 1 ->
  run_gitleaks args p w = run_gitleaks_handler p (cp_returncode cp) (cp_stderr cp) w1.
Proof.
  intros Hrun H0 H1. unfold run_gitleaks, try_except, bind. rewrite Hrun.
  rewrite !decide_False by assumption. reflexivity.
Qed.

Lemma handler_writes (p : string) (rc : Z) (output : string) (w : world) :
  w !! Path p <> Some Dir ->
  exists e, run_gitleaks_handler p rc output w
            = (<[Path p := File (JsonText (ErrorModel_model_dump e))]> w,
               Raise (SystemExit rc)).
Proof.
  intros Hp. unfold run_gitleaks_handler, bind, sys_exit, raise.
  eexists. rewrite write_error_to_file_ok by exact Hp. reflexivity.
Qed.

(** C2, as amended.  When the external process exits with a code other than
    0 and 1 and its trimmed standard error holds the marker
    [unknown flag: ], the Invoker writes the error document with
    [exit_code] 2 and the message naming the token, the text after the last
    marker up to the next line break, and leaves through [sys.exit] with the
    exit code of the external process. *)
Theorem unknown_flag_error (args : list string) (p : string) (w w1 : world)
  (cp : CompletedProcess) (pre token tail : string) :
  subprocess_run args w = (w1, Ret cp) ->
  cp_returncode cp <> 0 ->
  cp_returncode cp <> 1 ->
  strip (cp_stderr cp) = pre +:+ "unknown flag: " +:+ token +:+ tail ->
  contains "unknown flag: " (token +:+ tail) = false ->
  contains LF token = false ->
  tail = EmptyString \/ (exists more, tail = LF +:+ more) ->
  w1 !! Path p <> Some Dir ->
  run_gitleaks args p w
  = (<[Path p := File (JsonText
         (error_doc 2 ("Gitleaks scan failed: unknown argument '" +:+ token +:+ "'.")))]> w1,
     Raise (SystemExit (cp_returncode cp))).
Proof.
  intros Hrun H0 H1 Hs Hlast Hline Htail Hp.
  rewrite (run_gitleaks_fails _ _ _ _ _ Hrun H0 H1).
  unfold run_gitleaks_handler.
  assert (Ht : truthy (cp_stderr cp) = true).
  { destruct (cp_stderr cp); [|reflexivity].
    apply (f_equal String.length) in Hs. rewrite !length_app in Hs.
    simpl in Hs. lia. }
  rewrite Ht, Hs.
  assert (Hin : contains "unknown flag"
                  (pre +:+ "unknown flag: " +:+ token +:+ tail) = true).
  { change "unknown flag: " with ("unknown flag" +:+ ": ").
    rewrite (app_assoc "unknown flag"). apply contains_intro. }
  rewrite Hin.
  rewrite (split_last_after "u" "nknown flag: " (token +:+ tail)
             ltac:(reflexivity) Hlast pre).
  assert (Hfirst : item_first (split LF (token +:+ tail)) = token).
  { destruct Htail as [->|[more ->]].
    - rewrite app_nil_r. apply (split_first_line _ _ Hline EmptyString).
    - apply (split_first_line _ _ Hline more). }
  rewrite Hfirst. unfold bind, sys_exit, raise.
  rewrite write_error_to_file_ok by exact Hp. reflexivity.
Qed.

(** C5.  When the external process exits with a code other than 0 and 1 and
    its standard error does not hold [unknown flag], the error document
    carries the exit code of the process and the message made of the trimmed
    standard error, or of the fixed text when the standard error is empty,
    and the program leaves with that same code.  The report path is taken
    to be writable: no directory is in its place. *)
Theorem external_tool_error (args : list string) (p : string) (w w1 : world)
  (cp : CompletedProcess) :
  subprocess_run args w = (w1, Ret cp) ->
  cp_returncode cp <> 0 ->
  cp_returncode cp <> 1 ->
  contains "unknown flag" (cp_stderr cp) = false ->
  w1 !! Path p <> Some Dir ->
  run_gitleaks args p w
  = (<[Path p := File (JsonText
         (error_doc (cp_returncode cp)
            ("Gitleaks scan failed: " +:+
             (if decide (cp_stderr cp = EmptyString)
              then "No error message captured."
              else strip (cp_stderr cp)))))]> w1,
     Raise (SystemExit (cp_returncode cp))).
Proof.
  intros Hrun H0 H1 Hno Hp.
  rewrite (run_gitleaks_fails _ _ _ _ _ Hrun H0 H1).
  unfold run_gitleaks_handler.
  destruct (decide (cp_stderr cp = EmptyString)) as [E|E].
  - rewrite E. simpl truthy. cbv iota.
    change (contains "unknown flag" "No error message captured.") with false.
    cbv iota. unfold bind, sys_exit, raise.
    rewrite write_error_to_file_ok by exact Hp. reflexivity.
  - assert (Ht : truthy (cp_stderr cp) = true)
      by (destruct (cp_stderr cp); [congruence|reflexivity]).
    rewrite Ht, (strip_contains _ _ Hno). unfold bind, sys_exit, raise.
    rewrite write_error_to_file_ok by exact Hp. reflexivity.
Qed.

(** ** The Reshaper *)

(** What the body does once the file is known to hold a JSON value. *)
Lemma process_output_body_loaded (p : string) (w : world) (raw : json) :
  holds w (Path p) raw ->
  process_output_body p w
  = match py_iter raw with
    | Raise e => (w, Raise e)
    | Ret items =>
        match comprehension reshape_item items with
        | Raise e => (w, Raise e)
        | Ret findings =>
            (<[Path p := File (JsonText (report_doc findings))]> w, Ret tt)
        end
    end.
Proof.
  unfold holds. intros Hw.
  unfold process_output_body, bind, is_file, load_from, lift, ret. rewrite Hw. simpl.
  rewrite Hw. destruct (py_iter raw) as [items|e]; [|reflexivity].
  destruct (comprehension reshape_item items) as [findings|e]; [|reflexivity].
  unfold dump_to. rewrite Hw. reflexivity.
Qed.

(** When nothing is at the path, the body first puts an empty array there. *)
Lemma process_output_body_created (p : string) (w : world) :
  w !! Path p = None ->
  process_output_body p w
  = process_output_body p (<[Path p := File (JsonText (JArr []))]> w).
Proof.
  intros Hw.
  unfold process_output_body, bind, is_file, mkdir_parent, ret, dump_to.
  rewrite Hw. simpl. rewrite Hw. rewrite !lookup_insert_eq. reflexivity.
Qed.

Lemma reshape_item_ok (record out : json) :
  reshapes_to record out -> reshape_item record = Ret out.
Proof.
  intros (members & file & sl & el & descr & -> & Hf & Hs & He & Hd & ->).
  unfold reshape_item, getitem. rewrite Hf, Hs, He, Hd. reflexivity.
Qed.

Lemma reshapes_to_normalized (record out : json) :
  reshapes_to record out -> NormalizedFinding out.
Proof.
  intros (members & file & sl & el & descr & _ & _ & _ & _ & _ & ->). constructor.
Qed.

Lemma comprehension_ok (records : list json) :
  Forall RawFinding records ->
  exists outs, Forall2 reshapes_to records outs
               /\ comprehension reshape_item records = Ret outs.
Proof.
  induction 1 as [|record records [out Hout] _ (outs & Houts & IH)].
  - exists []. split; [constructor|reflexivity].
  - exists (out :: outs). split; [constructor; assumption|].
    simpl. rewrite (reshape_item_ok _ _ Hout), IH. reflexivity.
Qed.

(** The comprehension stops at the first record that raises. *)
Lemma comprehension_raises (good : list json) (bad : json) (rest : list json) (e : exn) :
  Forall RawFinding good ->
  reshape_item bad = Raise e ->
  comprehension reshape_item (good ++ bad :: rest) = Raise e.
Proof.
  intros Hgood Hbad. induction Hgood as [|record good [out Hout] _ IH]; simpl.
  - rewrite Hbad. reflexivity.
  - rewrite (reshape_item_ok _ _ Hout), IH. reflexivity.
Qed.

Lemma record_failure_raises (bad : json) (msg : string) :
  record_failure bad msg ->
  exists e, reshape_item bad = Raise e /\ caught e /\ exn_str e = msg.
Proof.
  intros [members before key after Hkeys Hbefore Hkey
         |members file sl el descr Hf Hs He Hd Hty].
  - exists (KeyError key). split; [|split; [exact I|reflexivity]].
    unfold reshape_item, getitem, required_keys in *.
    destruct before as [|k1 before]; simplify_eq/=; [rewrite Hkey; reflexivity|].
    apply Forall_cons in Hbefore as [[v1 ->] Hbefore].
    destruct before as [|k2 before]; simplify_eq/=; [rewrite Hkey; reflexivity|].
    apply Forall_cons in Hbefore as [[v2 ->] Hbefore].
    destruct before as [|k3 before]; simplify_eq/=; [rewrite Hkey; reflexivity|].
    apply Forall_cons in Hbefore as [[v3 ->] Hbefore].
    destruct before as [|k4 before]; simplify_eq/=; [rewrite Hkey; reflexivity|].
    destruct before; discriminate.
  - eexists. split; [|split].
    + unfold reshape_item, getitem. rewrite Hf, Hs, He, Hd.
      unfold Finding_new.
      destruct file, descr; try discriminate Hty; reflexivity.
    + destruct file, descr; try discriminate Hty; exact I.
    + destruct file, descr; try discriminate Hty; reflexivity.
Qed.

Lemma process_output_caught (p : string) (w w' : world) (e : exn) :
  process_output_body p w = (w', Raise e) ->
  caught e ->
  w' !! Path p <> Some Dir ->
  process_output p w
  = (<[Path p := File (JsonText (error_doc 1 (exn_str e)))]> w', Raise (SystemExit 1)).
Proof.
  intros Hbody Hc Hp. unfold process_output, try_except. rewrite Hbody.
  destruct e; try contradiction; unfold bind, sys_exit, raise;
    rewrite write_error_to_file_ok by exact Hp; reflexivity.
Qed.

Lemma process_output_uncaught (p : string) (w w' : world) (e : exn) :
  process_output_body p w = (w', Raise e) ->
  ~ caught e ->
  process_output p w = (w', Raise e).
Proof.
  intros Hbody Hc. unfold process_output, try_except. rewrite Hbody.
  destruct e; simpl in Hc; try reflexivity; exfalso; apply Hc; exact I.
Qed.

Lemma process_output_returns (p : string) (w w' : world) :
  process_output_body p w = (w', Ret tt) ->
  process_output p w = (w', Ret tt).
Proof.
  intros Hbody. unfold process_output, try_except. rewrite Hbody. reflexivity.
Qed.

(** C3.  On a findings file holding a JSON array of records that each carry
    [File] (a string), [StartLine], [EndLine] and [Description] (a string),
    the Reshaper returns and leaves in the file the document
    [{findings: outs}], where [outs] has one normalized finding per record,
    in the order of the records: [filename] is [File], [description] is
    [Description] and [line_range] is [StartLine], a dash, [EndLine]. *)
Theorem reshape_records (p : string) (w : world) (records : list json) :
  holds w (Path p) (JArr records) ->
  Forall RawFinding records ->
  exists outs,
    Forall2 reshapes_to records outs /\
    process_output p w
    = (<[Path p := File (JsonText (JObj [("findings", JArr outs)]))]> w, Ret tt).
Proof.
  intros Hw Hrecords.
  destruct (comprehension_ok _ Hrecords) as (outs & Houts & Hc).
  exists outs. split; [exact Houts|].
  apply process_output_returns.
  rewrite (process_output_body_loaded _ _ _ Hw). simpl. rewrite Hc. reflexivity.
Qed.

(** X20.  The failures the Reshaper handles.  On a findings file holding a
    JSON array in which the first record that is not a well-formed finding
    is an object that lacks a required key or whose [File] or [Description]
    is not a string, the Reshaper writes nothing but the error document with
    [exit_code] 1 and the description of that failure as its message, and
    leaves through [sys.exit(1)]. *)
Theorem reshape_aborts (p : string) (w : world) (good : list json) (bad : json)
  (rest : list json) (msg : string) :
  holds w (Path p) (JArr (good ++ bad :: rest)) ->
  Forall RawFinding good ->
  record_failure bad msg ->
  process_output p w
  = (<[Path p := File (JsonText
         (JObj [("exit_code", JInt 1); ("error_message", JStr msg)]))]> w,
     Raise (SystemExit 1)).
Proof.
  intros Hw Hgood Hbad.
  destruct (record_failure_raises _ _ Hbad) as (e & He & Hc & <-).
  apply process_output_caught; [|exact Hc|unfold holds in Hw; congruence].
  rewrite (process_output_body_loaded _ _ _ Hw). simpl.
  rewrite (comprehension_raises _ _ _ _ Hgood He). reflexivity.
Qed.

(** C7, read for a path at which nothing exists yet.  The Reshaper goes on
    as if the file held an empty array, which it first writes there; it
    returns, the file holds [{findings: []}], and a script that ends here
    exits with status 0. *)
Theorem reshape_creates (p : string) (w : world) :
  w !! Path p = None ->
  process_output p w = process_output p (<[Path p := File (JsonText (JArr []))]> w) /\
  process_output p w
  = (<[Path p := File (JsonText (JObj [("findings", JArr [])]))]> w, Ret tt) /\
  exit_status (snd (process_output p w)) = 0.
Proof.
  intros Hw.
  assert (Hbody : process_output_body p w
                  = (<[Path p := File (JsonText (report_doc []))]> w, Ret tt)).
  { rewrite (process_output_body_created _ _ Hw).
    rewrite (process_output_body_loaded _ _ (JArr [])) by apply lookup_insert_eq.
    simpl. rewrite insert_insert_eq. reflexivity. }
  split; [|split].
  - unfold process_output, try_except.
    rewrite (process_output_body_created _ _ Hw). reflexivity.
  - apply process_output_returns. exact Hbody.
  - rewrite (process_output_returns _ _ _ Hbody). reflexivity.
Qed.

(** C8.  On a file that already holds a reshaped document
    [{findings: ...}], a second reshape writes nothing: the world is left as
    it was.  (The run ends there with an uncaught [TypeError]: the first
    item the loop sees is the key [findings], a string, which cannot be
    indexed by [File].) *)
Theorem reshape_again (p : string) (w : world) (findings : json) :
  holds w (Path p) (JObj [("findings", findings)]) ->
  fst (process_output p w) = w /\
  holds (fst (process_output p w)) (Path p) (JObj [("findings", findings)]) /\
  snd (process_output p w) = Raise TypeError.
Proof.
  intros Hw.
  assert (Hrun : process_output p w = (w, Raise TypeError)).
  { apply process_output_uncaught; [|intros []].
    rewrite (process_output_body_loaded _ _ _ Hw). reflexivity. }
  rewrite Hrun. split; [reflexivity|]. split; [exact Hw|reflexivity].
Qed.

Lemma reshape_item_object (members : list (string * json)) :
  (exists out, reshape_item (JObj members) = Ret out /\ NormalizedFinding out) \/
  (exists e, reshape_item (JObj members) = Raise e /\ caught e).
Proof.
  unfold reshape_item, getitem.
  destruct (dict_get "File" members) as [file|]; [|right; eexists; split; [reflexivity|exact I]].
  destruct (dict_get "StartLine" members) as [sl|]; [|right; eexists; split; [reflexivity|exact I]].
  destruct (dict_get "EndLine" members) as [el|]; [|right; eexists; split; [reflexivity|exact I]].
  destruct (dict_get "Description" members) as [descr|]; [|right; eexists; split; [reflexivity|exact I]].
  destruct file, descr;
    first [ left; eexists; split; [reflexivity|constructor]
          | right; eexists; split; [reflexivity|exact I] ].
Qed.

Lemma comprehension_objects (items : list json) :
  Forall is_object items ->
  (exists outs, comprehension reshape_item items = Ret outs
                /\ Forall NormalizedFinding outs) \/
  (exists e, comprehension reshape_item items = Raise e /\ caught e).
Proof.
  induction 1 as [|item items [members ->] _ IH].
  - left. exists []. split; [reflexivity|constructor].
  - cbn [comprehension].
    destruct (reshape_item_object members) as [(out & -> & Hout)|(e & -> & He)].
    + destruct IH as [(outs & -> & Houts)|(e & -> & He)].
      * left. exists (out :: outs). split; [reflexivity|constructor; assumption].
      * right. exists e. split; [reflexivity|exact He].
    + right. exists e. split; [reflexivity|exact He].
Qed.

(** After the Reshaper has run on a report that is absent or an array of
    objects, the report path holds a report or an error document. *)
Lemma process_output_document (p : string) (w : world) :
  w !! Path p = None \/
  (exists items, holds w (Path p) (JArr items) /\ Forall is_object items) ->
  exists j, holds (fst (process_output p w)) (Path p) j
            /\ (ReportDocument j \/ ErrorDocument j).
Proof.
  intros [Hw|(items & Hw & Hitems)].
  - exists (report_doc []). split; [|left; constructor; constructor].
    assert (Hbody : process_output_body p w
                    = (<[Path p := File (JsonText (report_doc []))]> w, Ret tt)).
    { rewrite (process_output_body_created _ _ Hw).
      rewrite (process_output_body_loaded _ _ (JArr [])) by apply lookup_insert_eq.
      simpl. rewrite insert_insert_eq. reflexivity. }
    rewrite (process_output_returns _ _ _ Hbody). apply lookup_insert_eq.
  - pose proof (process_output_body_loaded _ _ _ Hw) as Hbody. simpl in Hbody.
    destruct (comprehension_objects _ Hitems) as [(outs & Hc & Houts)|(e & Hc & He)];
      rewrite Hc in Hbody.
    + exists (report_doc outs). split; [|left; constructor; exact Houts].
      rewrite (process_output_returns _ _ _ Hbody). apply lookup_insert_eq.
    + exists (error_doc 1 (exn_str e)). split; [|right; constructor].
      rewrite (process_output_caught _ _ _ _ Hbody He)
        by (unfold holds in Hw; congruence).
      apply lookup_insert_eq.
Qed.

(** ** The main block *)

Lemma source_or_None_Some (source : string) :
  source <> EmptyString -> source_or_None (Some source) = Some source.
Proof. destruct source; [congruence|reflexivity]. Qed.

Lemma validate_source_ok (args : Namespace) (source : string) (n : node) (w : world) :
  ns_source args = Some source ->
  source <> EmptyString ->
  w !! Path source = Some n ->
  validate_source args w = (w, Ret tt).
Proof.
  intros Hs Hne Hw. unfold validate_source.
  rewrite Hs, (source_or_None_Some _ Hne).
  unfold bind, path_exists. rewrite Hw. reflexivity.
Qed.

Lemma main_reaches_invoker (argv : list string) (args : Namespace) (w : world) :
  argparse_parse argv = Parsed args ->
  validate_source args w = (w, Ret tt) ->
  main argv w
  = (run_gitleaks (gitleaks_args args) (ns_report_path args);;
     process_output (ns_report_path args)) w.
Proof.
  intros Hparse Hvalid. unfold main, parse_arguments. rewrite Hparse.
  unfold bind at 1. unfold ret at 1. unfold bind at 1. rewrite Hvalid.
  reflexivity.
Qed.

(** C6.  When the external process exits with 0 or with 1, the Invoker
    returns what [subprocess.run] returned and leaves the world as the
    process left it: no error document is written and the program is not
    ended.  The statement that follows the call, the Reshaper, then runs on
    that world, the same way for both codes; in the main block this is the
    rest of the script. *)
Theorem scan_continues (args : list string) (p : string) (w w1 : world)
  (cp : CompletedProcess) :
  subprocess_run args w = (w1, Ret cp) ->
  cp_returncode cp = 0 \/ cp_returncode cp = 1 ->
  run_gitleaks args p w = (w1, Ret cp) /\
  (run_gitleaks args p;; process_output p) w = process_output p w1 /\
  (forall argv a,
     argparse_parse argv = Parsed a ->
     validate_source a w = (w, Ret tt) ->
     args = gitleaks_args a ->
     p = ns_report_path a ->
     main argv w = process_output p w1).
Proof.
  intros Hrun Hrc.
  pose proof (run_gitleaks_continues _ p _ _ _ Hrun Hrc) as Hinv.
  split; [exact Hinv|]. split.
  - unfold bind. rewrite Hinv. reflexivity.
  - intros argv a Hparse Hvalid -> ->.
    rewrite (main_reaches_invoker _ _ _ Hparse Hvalid).
    unfold bind. rewrite Hinv. reflexivity.
Qed.

(** C9, as amended.  A source that is given, is not the empty string and
    names something on disk, a regular file as well as a directory, passes
    the validation, and the script goes on to the Invoker. *)
Theorem source_accepted (argv : list string) (args : Namespace) (source : string)
  (n : node) (w : world) :
  argparse_parse argv = Parsed args ->
  ns_source args = Some source ->
  source <> EmptyString ->
  w !! Path source = Some n ->
  validate_source args w = (w, Ret tt) /\
  main argv w
  = (run_gitleaks (gitleaks_args args) (ns_report_path args);;
     process_output (ns_report_path args)) w.
Proof.
  intros Hparse Hs Hne Hw.
  pose proof (validate_source_ok _ _ _ _ Hs Hne Hw) as Hvalid.
  split; [exact Hvalid|]. apply main_reaches_invoker; assumption.
Qed.

(** C10.  An error of the command line or of the source path (the parser
    rejects the arguments, the source is missing, the source names nothing
    on disk) puts its error document, with [exit_code] 2, at the literal
    path [output.json] and leaves through [sys.exit(2)], whatever report
    path was given: no other path is touched.  [output.json] is taken to be
    writable: no directory is in its place. *)
Theorem config_error_target (argv : list string) (w : world) (msg : string) :
  config_error argv w msg ->
  w !! "output.json" <> Some Dir ->
  main argv w
  = (<["output.json" := File (JsonText
         (JObj [("exit_code", JInt 2); ("error_message", JStr msg)]))]> w,
     Raise (SystemExit 2)) /\
  (forall q, q <> "output.json" -> fst (main argv w) !! q = w !! q).
Proof.
  intros Herr Hout.
  assert (Hmain : main argv w
    = (<["output.json" := File (JsonText (error_doc 2 msg))]> w, Raise (SystemExit 2))).
  { destruct Herr as [message Hparse|args Hparse Hs|args source Hparse Hs Hne Hw].
    - unfold main, parse_arguments. rewrite Hparse.
      unfold bind at 1. unfold CustomArgumentParser_error, bind, sys_exit, raise.
      rewrite write_error_to_file_ok by exact Hout. reflexivity.
    - unfold main, parse_arguments. rewrite Hparse.
      unfold bind at 1. unfold ret at 1. unfold bind at 1.
      unfold validate_source, source_or_None.
      destruct Hs as [-> | ->]; simpl; unfold bind, sys_exit, raise;
        rewrite write_error_to_file_ok by exact Hout; reflexivity.
    - unfold main, parse_arguments. rewrite Hparse.
      unfold bind at 1. unfold ret at 1. unfold bind at 1.
      unfold validate_source. rewrite Hs, (source_or_None_Some _ Hne).
      unfold bind at 1. unfold path_exists. rewrite Hw. cbn [negb]. cbv beta iota.
      unfold bind, sys_exit, raise.
      rewrite write_error_to_file_ok by exact Hout. reflexivity. }
  split; [exact Hmain|].
  intros q Hq. rewrite Hmain. simpl. apply lookup_insert_ne. congruence.
Qed.

(** C1, as amended.  In a run that passes the validation of the command
    line and of the source, in which the external process runs to its end,
    the report path is not a directory and, when the process exits with 0 or
    1, the report path is then empty or holds a JSON array of objects, the
    file at the report path holds in the end exactly one JSON document, a
    report document or an error document. *)
Theorem report_path_document (argv : list string) (args : Namespace) (source : string)
  (n : node) (w w1 : world) (cp : CompletedProcess) :
  argparse_parse argv = Parsed args ->
  ns_source args = Some source ->
  source <> EmptyString ->
  w !! Path source = Some n ->
  subprocess_run (gitleaks_args args) w = (w1, Ret cp) ->
  w1 !! Path (ns_report_path args) <> Some Dir ->
  (cp_returncode cp = 0 \/ cp_returncode cp = 1 ->
   w1 !! Path (ns_report_path args) = None \/
   (exists items, holds w1 (Path (ns_report_path args)) (JArr items)
                  /\ Forall is_object items)) ->
  exists j, holds (fst (main argv w)) (Path (ns_report_path args)) j
            /\ (ReportDocument j \/ ErrorDocument j).
Proof.
  intros Hparse Hs Hne Hw Hrun Hdir Hreport.
  rewrite (main_reaches_invoker _ _ _ Hparse (validate_source_ok _ _ _ _ Hs Hne Hw)).
  unfold bind.
  destruct (decide (cp_returncode cp = 0)) as [H0|H0];
    [|destruct (decide (cp_returncode cp = 1)) as [H1|H1]].
  - rewrite (run_gitleaks_continues _ _ _ _ _ Hrun (or_introl H0)).
    apply process_output_document, Hreport. left. exact H0.
  - rewrite (run_gitleaks_continues _ _ _ _ _ Hrun (or_intror H1)).
    apply process_output_document, Hreport. right. exact H1.
  - rewrite (run_gitleaks_fails _ _ _ _ _ Hrun H0 H1).
    destruct (handler_writes (ns_report_path args) (cp_returncode cp)
                (cp_stderr cp) w1 Hdir) as [e ->].
    exists (ErrorModel_model_dump e). split; [apply lookup_insert_eq|].
    right. destruct e. constructor.
Qed.

End Script.

(** ** Concrete runs *)

Section Runs.
Import PyStr.

(** [src] exists, the scanner meets an unknown flag and exits with 126. *)
Lemma unknown_flag_error_witness :
  run_gitleaks (H := libs_with (scanner_exits 126 unknown_flag_stderr))
    ["gitleaks"; "detect"; "--jit"] "output77.json" world_src
  = (<["output77.json" := File (JsonText
         (error_doc 2 "Gitleaks scan failed: unknown argument '--jit'."))]> world_src,
     Raise (SystemExit 126)).
Proof.
  apply (unknown_flag_error (H := libs_with (scanner_exits 126 unknown_flag_stderr))
           ["gitleaks"; "detect"; "--jit"] "output77.json" world_src world_src
           (mkCompletedProcess 126 EmptyString unknown_flag_stderr)
           "Error: " "--jit" (LF +:+ "Usage:")).
  - reflexivity.
  - simpl. lia.
  - simpl. lia.
  - reflexivity.
  - reflexivity.
  - reflexivity.
  - right. exists "Usage:". reflexivity.
  - vm_compute. discriminate.
Defined.

(** C2 as stated fails on its exit code: the process exits with 126 and its
    standard error holds the marker; the error document carries 2, but the
    program leaves with 126, as the test of the repository expects. *)
Lemma unknown_flag_exit_code_counterexample :
  let r := run_gitleaks (H := libs_with (scanner_exits 126 unknown_flag_stderr))
             ["gitleaks"; "detect"; "--jit"] "output77.json" world_src in
  contains "unknown flag: " unknown_flag_stderr = true /\
  holds (fst r) "output77.json"
    (error_doc 2 "Gitleaks scan failed: unknown argument '--jit'.") /\
  exit_status (snd r) = 126 /\
  exit_status (snd r) <> 2.
Proof.
  intros r. split; [reflexivity|]. split; [reflexivity|].
  split; [reflexivity|]. vm_compute. discriminate.
Qed.

(** The scanner cannot open the repository and exits with 3. *)
Lemma external_tool_error_witness :
  run_gitleaks (H := libs_with (scanner_exits 3 "  fatal: not a repository "))
    ["gitleaks"; "detect"] "report.json" world_src
  = (<["report.json" := File (JsonText
         (error_doc 3 "Gitleaks scan failed: fatal: not a repository"))]> world_src,
     Raise (SystemExit 3)).
Proof.
  apply (external_tool_error (H := libs_with (scanner_exits 3 "  fatal: not a repository "))
           ["gitleaks"; "detect"] "report.json" world_src world_src
           (mkCompletedProcess 3 EmptyString "  fatal: not a repository ")).
  - reflexivity.
  - simpl. lia.
  - simpl. lia.
  - reflexivity.
  - vm_compute. discriminate.
Defined.

Lemma sample_record_reshapes (L : Libraries) :
  reshapes_to (H := L) sample_record sample_finding.
Proof.
  exists [("Description", JStr "AWS Access Key"); ("StartLine", JInt 12);
          ("EndLine", JInt 12); ("File", JStr "app/config.py");
          ("Secret", JStr "AKIA")],
         "app/config.py", (JInt 12), (JInt 12), "AWS Access Key".
  repeat split; reflexivity.
Defined.

(** The report holds one record of the scanner. *)
Lemma reshape_records_witness :
  exists outs,
    Forall2 (reshapes_to (H := libs_with (scanner_exits 1 EmptyString)))
      [sample_record] outs /\
    process_output (H := libs_with (scanner_exits 1 EmptyString))
      "report.json" (world_report (JArr [sample_record]))
    = (<["report.json" := File (JsonText (JObj [("findings", JArr outs)]))]>
         (world_report (JArr [sample_record])), Ret tt).
Proof.
  apply (reshape_records (H := libs_with (scanner_exits 1 EmptyString))
           "report.json" (world_report (JArr [sample_record])) [sample_record]).
  - reflexivity.
  - constructor; [|constructor].
    exists sample_finding. apply sample_record_reshapes.
Defined.

(** The second record of the report lacks [EndLine]. *)
Lemma reshape_aborts_witness :
  process_output (H := libs_with (scanner_exits 1 EmptyString))
    "report.json" (world_report (JArr [sample_record; record_without_end; JInt 5]))
  = (<["report.json" := File (JsonText
         (JObj [("exit_code", JInt 1); ("error_message", JStr "'EndLine'")]))]>
       (world_report (JArr [sample_record; record_without_end; JInt 5])),
     Raise (SystemExit 1)).
Proof.
  apply (reshape_aborts (H := libs_with (scanner_exits 1 EmptyString))
           "report.json" (world_report (JArr [sample_record; record_without_end; JInt 5]))
           [sample_record] record_without_end [JInt 5] "'EndLine'").
  - reflexivity.
  - constructor; [|constructor].
    exists sample_finding. apply sample_record_reshapes.
  - apply (missing_key (H := libs_with (scanner_exits 1 EmptyString))
             _ ["File"; "StartLine"] "EndLine" ["Description"]).
    + reflexivity.
    + repeat constructor; eexists; reflexivity.
    + reflexivity.
Defined.

(** C4, where the code falls short of it: a record that is not an object and
    a file that is not JSON.  The array holds the number 5, which is no
    finding: the loop raises a [TypeError]; the text cannot be decoded:
    [json.load] raises.  The [except] clause of [process_output] names
    neither exception, so the run ends in a traceback, the world is left as
    it was, and the file holds no error document, where a missing key or a
    field of the wrong type gets one. *)
Lemma reshape_aborts_counterexample :
  let L := libs_with (scanner_exits 1 EmptyString) in
  (let w := world_report (JArr [JInt 5]) in
   let r := process_output (H := L) "report.json" w in
   ~ RawFinding (H := L) (JInt 5) /\
   snd r = Raise TypeError /\
   fst r = w /\
   ~ (exists msg, holds (fst r) "report.json" (error_doc 1 msg))) /\
  (let w : world := <["report.json" := File (NotJson "[{")]> world_src in
   let r := process_output (H := L) "report.json" w in
   snd r = Raise JSONDecodeError /\
   fst r = w /\
   ~ (exists msg, holds (fst r) "report.json" (error_doc 1 msg))).
Proof.
  intros L. split.
  - intros w r. split; [|split; [|split]].
    + intros (out & members & file & sl & el & descr & Hrec & _). discriminate Hrec.
    + reflexivity.
    + reflexivity.
    + intros [msg Hmsg]. vm_compute in Hmsg. discriminate Hmsg.
  - intros w r. split; [|split].
    + reflexivity.
    + reflexivity.
    + intros [msg Hmsg]. vm_compute in Hmsg. discriminate Hmsg.
Qed.

(** The scanner writes one record and exits with 1. *)
Lemma scan_continues_witness :
  let L := libs_with (scanner_reports "report.json" (JArr [sample_record]) 1) in
  let args := gitleaks_args (sample_args (Some "src") "report.json") in
  let w1 := world_report (JArr [sample_record]) in
  run_gitleaks (H := L) args "report.json" world_src
  = (w1, Ret (mkCompletedProcess 1 EmptyString EmptyString)) /\
  (run_gitleaks (H := L) args "report.json";;
   process_output (H := L) "report.json")%py world_src
  = process_output (H := L) "report.json" w1 /\
  (forall argv a,
     argparse_parse (Libraries := L) argv = Parsed a ->
     validate_source a world_src = (world_src, Ret tt) ->
     args = gitleaks_args a ->
     "report.json" = ns_report_path a ->
     main (H := L) argv world_src = process_output (H := L) "report.json" w1).
Proof.
  intros L args w1.
  apply (scan_continues (H := L) args "report.json" world_src w1
           (mkCompletedProcess 1 EmptyString EmptyString)).
  - reflexivity.
  - right. reflexivity.
Defined.

(** The scanner found nothing and wrote no report. *)
Lemma reshape_creates_witness :
  let L := libs_with (scanner_exits 0 EmptyString) in
  process_output (H := L) "report.json" world_src
  = process_output (H := L) "report.json" (world_report (JArr [])) /\
  process_output (H := L) "report.json" world_src
  = (<["report.json" := File (JsonText (JObj [("findings", JArr [])]))]> world_src,
     Ret tt) /\
  exit_status (snd (process_output (H := L) "report.json" world_src)) = 0.
Proof.
  intros L. apply (reshape_creates (H := L) "report.json" world_src). reflexivity.
Defined.

(** The report was reshaped by an earlier run. *)
Lemma reshape_again_witness :
  let L := libs_with (scanner_exits 0 EmptyString) in
  let w := world_report (JObj [("findings", JArr [sample_finding])]) in
  fst (process_output (H := L) "report.json" w) = w /\
  holds (fst (process_output (H := L) "report.json" w)) "report.json"
    (JObj [("findings", JArr [sample_finding])]) /\
  snd (process_output (H := L) "report.json" w) = Raise TypeError.
Proof.
  intros L w.
  apply (reshape_again (H := L) "report.json" w (JArr [sample_finding])).
  reflexivity.
Defined.

(** The source is a regular file. *)
Lemma source_accepted_witness :
  let L := libs_source (Some "secrets.txt") in
  let w : world := {["secrets.txt" := File (NotJson "password=hunter2")]} in
  let args := sample_args (Some "secrets.txt") "custom.json" in
  validate_source args w = (w, Ret tt) /\
  main (H := L) [] w
  = (run_gitleaks (H := L) (gitleaks_args args) "custom.json";;
     process_output (H := L) "custom.json")%py w.
Proof.
  intros L w args.
  apply (source_accepted (H := L) [] args "secrets.txt"
           (File (NotJson "password=hunter2")) w).
  - reflexivity.
  - reflexivity.
  - discriminate.
  - reflexivity.
Defined.

(** C9 as stated fails on an empty source: the flag is given, pathlib reads
    the empty string as the current directory, which exists, and yet the
    validation reports a missing source and the script leaves with 2. *)
Lemma source_accepted_counterexample :
  let L := libs_source (Some EmptyString) in
  let w : world := {["." := Dir]} in
  ns_source (sample_args (Some EmptyString) "custom.json") = Some EmptyString /\
  snd (path_exists (Path EmptyString) w) = Ret true /\
  main (H := L) [] w
  = (<["output.json" := File (JsonText
         (error_doc 2 "Gitleaks scan failed: please provide a source folder"))]> w,
     Raise (SystemExit 2)).
Proof.
  intros L w. split; [reflexivity|]. split; reflexivity.
Qed.

(** No source is given; the report path is [custom.json]. *)
Lemma config_error_target_witness :
  let L := libs_source None in
  main (H := L) [] world_src
  = (<["output.json" := File (JsonText
         (JObj [("exit_code", JInt 2);
                ("error_message",
                 JStr "Gitleaks scan failed: please provide a source folder")]))]>
       world_src,
     Raise (SystemExit 2)) /\
  (forall q, q <> "output.json" -> fst (main (H := L) [] world_src) !! q = world_src !! q).
Proof.
  intros L.
  apply (config_error_target (H := L) [] world_src
           "Gitleaks scan failed: please provide a source folder").
  - apply (source_missing (H := L) [] world_src (sample_args None "custom.json")).
    + reflexivity.
    + left. reflexivity.
  - vm_compute. discriminate.
Defined.

(** The scanner writes one record and exits with 1. *)
Lemma report_path_document_witness :
  let L := libs_with (scanner_reports "report.json" (JArr [sample_record]) 1) in
  exists j, holds (fst (main (H := L) [] world_src)) "report.json" j
            /\ (ReportDocument j \/ ErrorDocument j).
Proof.
  intros L.
  apply (report_path_document (H := L) [] (sample_args (Some "src") "report.json")
           "src" Dir world_src (world_report (JArr [sample_record]))
           (mkCompletedProcess 1 EmptyString EmptyString)).
  - reflexivity.
  - reflexivity.
  - discriminate.
  - reflexivity.
  - reflexivity.
  - vm_compute. discriminate.
  - intros _. right. exists [sample_record]. split; [reflexivity|].
    constructor; [|constructor]. eexists. reflexivity.
Defined.

(** C1 as stated fails when the command line is at fault: no source is
    given and the report path is [custom.json]; the run ends with status 2,
    its error document is at [output.json], and nothing is at the report
    path. *)
Lemma report_path_document_counterexample :
  let L := libs_source None in
  let r := main (H := L) [] world_src in
  exit_status (snd r) = 2 /\
  holds (fst r) "output.json"
    (error_doc 2 "Gitleaks scan failed: please provide a source folder") /\
  ~ (exists j, holds (fst r) (Path "custom.json") j).
Proof.
  intros L r. split; [reflexivity|]. split; [reflexivity|].
  intros [j Hj]. vm_compute in Hj. discriminate Hj.
Qed.

(** The runs above, computed. *)
Example sample_report_run :
  process_output (H := libs_with (scanner_exits 1 EmptyString))
    "report.json" (world_report (JArr [sample_record]))
  = (world_report (JObj [("findings", JArr [sample_finding])]), Ret tt).
Proof. vm_compute. reflexivity. Qed.

Example split_run :
  split "unknown flag: " "Error: unknown flag: --jit" = ["Error: "; "--jit"].
Proof. reflexivity. Qed.

Example strip_run : strip ("  a b" +:+ LF +:+ " ") = "a b".
Proof. reflexivity. Qed.

Example whitespace_only_stderr :
  snd (run_gitleaks_handler "report.json" 3 "  " world_src) = Raise (SystemExit 3) /\
  holds (fst (run_gitleaks_handler "report.json" 3 "  " world_src)) "report.json"
    (error_doc 3 "Gitleaks scan failed: ").
Proof. split; reflexivity. Qed.

End Runs.

(** ** Further properties of the error document *)

Section ScriptMore.
Context `{Libraries}.
Import PyStr PyStrFacts.

(** X1.  An error document written by [write_error_to_file] is read back by
    [read_output_file] as the dumped model, whatever the path named before,
    a directory apart. *)
Theorem write_error_read_back (p : string) (e : ErrorModel) (w : world) :
  w !! Path p <> Some Dir ->
  (write_error_to_file p e;; read_output_file p) w
  = (<[Path p := File (JsonText (ErrorModel_model_dump e))]> w,
     Ret (Some (JObj [("exit_code", JInt (exit_code e));
                      ("error_message", JStr (error_message e))]))).
Proof.
  intros Hp. unfold bind at 1. rewrite write_error_to_file_ok by exact Hp.
  unfold read_output_file, bind, path_exists, load_from, ret.
  rewrite !lookup_insert_eq. reflexivity.
Qed.

(** X2.  Error documents do not pile up: writing one and then another at
    the same path leaves what writing the second alone leaves. *)
Theorem write_error_overwrites (p : string) (e1 e2 : ErrorModel) (w : world) :
  w !! Path p <> Some Dir ->
  (write_error_to_file p e1;; write_error_to_file p e2) w
  = write_error_to_file p e2 w.
Proof.
  intros Hp. unfold bind. rewrite (write_error_to_file_ok p e1) by exact Hp.
  rewrite !write_error_to_file_ok.
  - rewrite insert_insert_eq. reflexivity.
  - exact Hp.
  - rewrite lookup_insert_eq. discriminate.
Qed.

(** X3.  At a path that names a directory [write_error_to_file] writes
    nothing and raises [IsADirectoryError]. *)
Theorem write_error_directory (p : string) (e : ErrorModel) (w : world) :
  w !! Path p = Some Dir ->
  write_error_to_file p e w = (w, Raise (IsADirectoryError (Path p))).
Proof.
  intros Hp. unfold write_error_to_file, mkdir_parent, bind, ret, dump_to.
  rewrite Hp. reflexivity.
Qed.

(** ** Further properties of the Invoker *)

(** X4.  When the external process cannot be run and [subprocess.run]
    raises (anything but a [CalledProcessError]), the Invoker lets the
    exception through and writes no error document. *)
Theorem run_gitleaks_spawn_failure (args : list string) (p : string) (w w1 : world)
  (e : exn) :
  subprocess_run args w = (w1, Raise e) ->
  (forall rc cmd output, e <> CalledProcessError rc cmd output) ->
  run_gitleaks args p w = (w1, Raise e).
Proof.
  intros Hrun He. unfold run_gitleaks, try_except, bind. rewrite Hrun.
  destruct e; try reflexivity. exfalso. eapply He. reflexivity.
Qed.

Lemma only_spaces_strip (s : string) : only_spaces s = true -> strip s = EmptyString.
Proof.
  intros Hs. unfold strip.
  assert (Hl : lstrip s = EmptyString).
  { induction s as [|c s IH]; [reflexivity|]. simpl in Hs |- *.
    apply andb_true_iff in Hs as [-> Hs]. exact (IH Hs). }
  rewrite Hl. reflexivity.
Qed.

(** X5.  A standard error that is not empty but holds whitespace only is
    not replaced by the fixed text: the message ends after its prefix. *)
Theorem blank_stderr_message (args : list string) (p : string) (w w1 : world)
  (cp : CompletedProcess) :
  subprocess_run args w = (w1, Ret cp) ->
  cp_returncode cp <> 0 ->
  cp_returncode cp <> 1 ->
  cp_stderr cp <> EmptyString ->
  only_spaces (cp_stderr cp) = true ->
  w1 !! Path p <> Some Dir ->
  run_gitleaks args p w
  = (<[Path p := File (JsonText (error_doc (cp_returncode cp) "Gitleaks scan failed: "))]> w1,
     Raise (SystemExit (cp_returncode cp))).
Proof.
  intros Hrun H0 H1 Hne Hsp Hp.
  rewrite (run_gitleaks_fails _ _ _ _ _ Hrun H0 H1).
  unfold run_gitleaks_handler.
  assert (Ht : truthy (cp_stderr cp) = true)
    by (destruct (cp_stderr cp); [congruence|reflexivity]).
  rewrite Ht, (only_spaces_strip _ Hsp).
  change (contains "unknown flag" EmptyString) with false. cbv iota.
  unfold bind, sys_exit, raise.
  rewrite write_error_to_file_ok by exact Hp. reflexivity.
Qed.

(** X6.  When the trimmed standard error holds [unknown flag] but not the
    marker with its colon and space, the token of the message is the whole
    first line of the trimmed standard error. *)
Theorem unknown_flag_without_marker (args : list string) (p : string) (w w1 : world)
  (cp : CompletedProcess) (line tail : string) :
  subprocess_run args w = (w1, Ret cp) ->
  cp_returncode cp <> 0 ->
  cp_returncode cp <> 1 ->
  strip (cp_stderr cp) = line +:+ tail ->
  contains "unknown flag" (line +:+ tail) = true ->
  contains "unknown flag: " (line +:+ tail) = false ->
  contains LF line = false ->
  tail = EmptyString \/ (exists more, tail = LF +:+ more) ->
  w1 !! Path p <> Some Dir ->
  run_gitleaks args p w
  = (<[Path p := File (JsonText
         (error_doc 2 ("Gitleaks scan failed: unknown argument '" +:+ line +:+ "'.")))]> w1,
     Raise (SystemExit (cp_returncode cp))).
Proof.
  intros Hrun H0 H1 Hs Hin Hno Hline Htail Hp.
  rewrite (run_gitleaks_fails _ _ _ _ _ Hrun H0 H1).
  unfold run_gitleaks_handler.
  assert (Ht : truthy (cp_stderr cp) = true).
  { destruct (cp_stderr cp); [|reflexivity].
    rewrite <- Hs in Hin. discriminate Hin. }
  rewrite Ht, Hs, Hin.
  rewrite (split_eq "unknown flag: ") by discriminate.
  apply partition_None in Hno. rewrite Hno.
  change (item_last [line +:+ tail]) with (line +:+ tail).
  assert (Hfirst : item_first (split LF (line +:+ tail)) = line).
  { destruct Htail as [->|[more ->]].
    - rewrite app_nil_r. apply (split_first_line _ _ Hline EmptyString).
    - apply (split_first_line _ _ Hline more). }
  rewrite Hfirst. unfold bind, sys_exit, raise.
  rewrite write_error_to_file_ok by exact Hp. reflexivity.
Qed.

(** The text before the first cut at a one-character separator does not
    hold the separator. *)
Lemma partition_before (c : ascii) (s b a : string) :
  partition (String c EmptyString) s = Some (b, a) ->
  contains (String c EmptyString) b = false.
Proof.
  revert b. induction s as [|x s IH]; intros b; simpl.
  - discriminate.
  - destruct (decide (c = x)) as [->|Hx]; simpl.
    + intros [= <- <-]. reflexivity.
    + destruct (partition (String c EmptyString) s) as [[b' a']|]; [|discriminate].
      intros [= <- <-]. simpl. rewrite decide_False by exact Hx. simpl.
      apply IH. reflexivity.
Qed.

Lemma first_line_no_break (s : string) :
  contains LF (item_first (split LF s)) = false.
Proof.
  unfold LF. rewrite split_eq by discriminate.
  destruct (partition (String (ascii_of_nat 10) EmptyString) s) as [[b a]|] eqn:P.
  - exact (partition_before _ _ _ _ P).
  - apply partition_None in P. exact P.
Qed.

(** X7.  Every failure of the external process (an exit code other than 0
    and 1) ends the same way when the report path can be written: an error
    document is there, its message starts with [Gitleaks scan failed: ],
    and the program leaves with the exit code of the process.  The document
    is one of two: code 2 with a token that holds no line break, or the
    code of the process with a text that does not mention [unknown flag]. *)
Theorem invoker_failure_documented (args : list string) (p : string) (w w1 : world)
  (cp : CompletedProcess) :
  subprocess_run args w = (w1, Ret cp) ->
  cp_returncode cp <> 0 ->
  cp_returncode cp <> 1 ->
  w1 !! Path p <> Some Dir ->
  exists code msg,
    run_gitleaks args p w
    = (<[Path p := File (JsonText (error_doc code ("Gitleaks scan failed: " +:+ msg)))]> w1,
       Raise (SystemExit (cp_returncode cp))) /\
    ((code = 2 /\
      exists token, contains LF token = false
                    /\ msg = "unknown argument '" +:+ token +:+ "'.") \/
     (code = cp_returncode cp /\ contains "unknown flag" msg = false)).
Proof.
  intros Hrun H0 H1 Hp.
  rewrite (run_gitleaks_fails _ _ _ _ _ Hrun H0 H1).
  unfold run_gitleaks_handler. cbv zeta.
  set (m := if truthy (cp_stderr cp) then strip (cp_stderr cp)
            else "No error message captured.").
  destruct (contains "unknown flag" m) eqn:Hm.
  - exists 2, ("unknown argument '"
               +:+ item_first (split LF (item_last (split "unknown flag: " m))) +:+ "'.").
    split.
    + unfold bind, sys_exit, raise.
      rewrite write_error_to_file_ok by exact Hp. reflexivity.
    + left. split; [reflexivity|]. eexists. split; [|reflexivity].
      apply first_line_no_break.
  - exists (cp_returncode cp), m. split.
    + unfold bind, sys_exit, raise.
      rewrite write_error_to_file_ok by exact Hp. reflexivity.
    + right. split; [reflexivity|exact Hm].
Qed.

(** X9.  A failure of the external process is a hard stop for the script:
    after a valid command line and source, the script ends where the
    Invoker ends, through [sys.exit] with the return code of the process,
    so with the low eight bits of that code as its status, and with the
    world the process left plus the error document; the Reshaper does not
    run. *)
Theorem main_stops_at_invoker (argv : list string) (args : Namespace) (source : string)
  (n : node) (w w1 : world) (cp : CompletedProcess) :
  argparse_parse argv = Parsed args ->
  ns_source args = Some source ->
  source <> EmptyString ->
  w !! Path source = Some n ->
  subprocess_run (gitleaks_args args) w = (w1, Ret cp) ->
  cp_returncode cp <> 0 ->
  cp_returncode cp <> 1 ->
  w1 !! Path (ns_report_path args) <> Some Dir ->
  snd (main argv w) = Raise (SystemExit (cp_returncode cp)) /\
  exit_status (snd (main argv w)) = cp_returncode cp mod 256 /\
  exists code msg,
    fst (main argv w)
    = <[Path (ns_report_path args) := File (JsonText (error_doc code msg))]> w1.
Proof.
  intros Hparse Hs Hne Hw Hrun H0 H1 Hp.
  rewrite (main_reaches_invoker _ _ _ Hparse (validate_source_ok _ _ _ _ Hs Hne Hw)).
  unfold bind.
  rewrite (run_gitleaks_fails _ _ _ _ _ Hrun H0 H1).
  destruct (handler_writes (ns_report_path args) (cp_returncode cp)
              (cp_stderr cp) w1 Hp) as [e ->].
  split; [reflexivity|]. split; [reflexivity|].
  exists (exit_code e), (error_message e). destruct e. reflexivity.
Qed.

(** ** Further properties of the Reshaper *)

Lemma reshape_item_ret (item out : json) :
  reshape_item item = Ret out -> reshapes_to item out.
Proof.
  unfold reshape_item, getitem. destruct item as [| | | | |items|members]; try discriminate.
  destruct (dict_get "File" members) as [file|] eqn:Hf; [|discriminate].
  destruct (dict_get "StartLine" members) as [sl|] eqn:Hs; [|discriminate].
  destruct (dict_get "EndLine" members) as [el|] eqn:He; [|discriminate].
  destruct (dict_get "Description" members) as [descr|] eqn:Hd; [|discriminate].
  destruct file as [| | | |f| |]; try discriminate;
    destruct descr as [| | | |d| |]; try discriminate.
  intros [= <-]. exists members, f, sl, el, d. repeat split; assumption.
Qed.

Lemma reshape_item_not_object (item : json) :
  ~ is_object item -> reshape_item item = Raise TypeError.
Proof.
  intros Hno. destruct item; try reflexivity.
  exfalso. apply Hno. eexists. reflexivity.
Qed.

Lemma reshape_item_raise (item : json) (e : exn) :
  reshape_item item = Raise e ->
  (~ is_object item /\ e = TypeError) \/
  (caught e /\ record_failure item (exn_str e)).
Proof.
  destruct item as [| | | | |items|members];
    try (intros [= <-]; left; split; [intros [m Hm]; discriminate Hm|reflexivity]).
  unfold reshape_item, getitem. intros H0. right.
  destruct (dict_get "File" members) as [file|] eqn:Hf.
  2:{ injection H0 as <-. split; [exact I|].
      apply (missing_key members [] "File" ["StartLine"; "EndLine"; "Description"]);
        [reflexivity|constructor|exact Hf]. }
  destruct (dict_get "StartLine" members) as [sl|] eqn:Hs.
  2:{ injection H0 as <-. split; [exact I|].
      apply (missing_key members ["File"] "StartLine" ["EndLine"; "Description"]);
        [reflexivity|repeat constructor; eauto|exact Hs]. }
  destruct (dict_get "EndLine" members) as [el|] eqn:He.
  2:{ injection H0 as <-. split; [exact I|].
      apply (missing_key members ["File"; "StartLine"] "EndLine" ["Description"]);
        [reflexivity|repeat constructor; eauto|exact He]. }
  destruct (dict_get "Description" members) as [descr|] eqn:Hd.
  2:{ injection H0 as <-. split; [exact I|].
      apply (missing_key members ["File"; "StartLine"; "EndLine"] "Description" []);
        [reflexivity|repeat constructor; eauto|exact Hd]. }
  destruct file, descr; try discriminate H0; injection H0 as <-;
    (split; [exact I|]);
    apply (field_type members _ _ _ _ Hf Hs He Hd); reflexivity.
Qed.

Lemma comprehension_ret (items outs : list json) :
  comprehension reshape_item items = Ret outs -> Forall2 reshapes_to items outs.
Proof.
  revert outs. induction items as [|item items IH]; intros outs; simpl.
  - intros [= <-]. constructor.
  - destruct (reshape_item item) as [out|e] eqn:Hitem; [|discriminate].
    destruct (comprehension reshape_item items) as [outs'|e]; [|discriminate].
    intros [= <-]. constructor; [apply reshape_item_ret; exact Hitem|].
    apply IH. reflexivity.
Qed.

Lemma comprehension_raise (items : list json) (e : exn) :
  comprehension reshape_item items = Raise e ->
  exists good bad rest,
    items = (good ++ bad :: rest)%list /\ Forall RawFinding good
    /\ reshape_item bad = Raise e.
Proof.
  induction items as [|item items IH]; simpl; [discriminate|].
  destruct (reshape_item item) as [out|e'] eqn:Hitem.
  - destruct (comprehension reshape_item items) as [outs'|e'']; [discriminate|].
    intros [= <-]. destruct (IH eq_refl) as (good & bad & rest & -> & Hgood & Hbad).
    exists (item :: good), bad, rest. split; [reflexivity|].
    split; [|exact Hbad]. constructor; [|exact Hgood].
    exists out. apply reshape_item_ret. exact Hitem.
  - intros [= <-]. exists [], item, items.
    split; [reflexivity|]. split; [constructor|exact Hitem].
Qed.

Lemma process_output_body_directory (p : string) (w : world) :
  w !! Path p = Some Dir ->
  process_output_body p w = (w, Raise (IsADirectoryError (Path p))).
Proof.
  intros Hw. unfold process_output_body, bind, is_file, mkdir_parent, ret, dump_to.
  rewrite Hw. simpl. rewrite Hw. reflexivity.
Qed.

Lemma process_output_body_not_json (p : string) (w : world) (raw : string) :
  w !! Path p = Some (File (NotJson raw)) ->
  process_output_body p w = (w, Raise JSONDecodeError).
Proof.
  intros Hw. unfold process_output_body, bind, is_file, load_from, ret.
  rewrite Hw. simpl. rewrite Hw. reflexivity.
Qed.

Lemma py_iter_raise (raw : json) (e : exn) : py_iter raw = Raise e -> e = TypeError.
Proof. destruct raw; simpl; congruence. Qed.

(** The three ways a run of the Reshaper can end, with the world it leaves. *)
Lemma process_output_shape (p : string) (w : world) :
  (exists outs, Forall NormalizedFinding outs /\
     process_output p w
     = (<[Path p := File (JsonText (report_doc outs))]> w, Ret tt)) \/
  (exists msg,
     process_output p w
     = (<[Path p := File (JsonText (error_doc 1 msg))]> w, Raise (SystemExit 1))) \/
  (exists e, (forall code, e <> SystemExit code) /\ process_output p w = (w, Raise e)).
Proof.
  destruct (w !! Path p) as [[[raw|text]|]|] eqn:Hw.
  - pose proof (process_output_body_loaded p w raw Hw) as Hbody.
    destruct (py_iter raw) as [items|e] eqn:Hiter.
    + destruct (comprehension reshape_item items) as [outs|e] eqn:Hc.
      * left. exists outs. split.
        -- apply comprehension_ret in Hc.
           clear -Hc. induction Hc as [|item out items outs Hout _ IH]; constructor;
             [exact (reshapes_to_normalized _ _ Hout)|exact IH].
        -- apply process_output_returns. exact Hbody.
      * destruct (comprehension_raise _ _ Hc) as (good & bad & rest & _ & _ & Hbad).
        destruct (reshape_item_raise _ _ Hbad) as [[_ ->]|[Hcaught _]].
        -- right. right. exists TypeError. split; [discriminate|].
           apply process_output_uncaught; [exact Hbody|intros []].
        -- right. left. exists (exn_str e).
           apply process_output_caught; [exact Hbody|exact Hcaught|congruence].
    + apply py_iter_raise in Hiter as ->.
      right. right. exists TypeError. split; [discriminate|].
      apply process_output_uncaught; [exact Hbody|intros []].
  - right. right. exists JSONDecodeError. split; [discriminate|].
    apply process_output_uncaught; [|intros []].
    exact (process_output_body_not_json _ _ _ Hw).
  - right. right. exists (IsADirectoryError (Path p)). split; [discriminate|].
    apply process_output_uncaught; [|intros []].
    exact (process_output_body_directory _ _ Hw).
  - left. exists []. split; [constructor|].
    apply process_output_returns.
    rewrite (process_output_body_created _ _ Hw).
    rewrite (process_output_body_loaded _ _ (JArr [])) by apply lookup_insert_eq.
    simpl. rewrite insert_insert_eq. reflexivity.
Qed.

(** X10.  What a run of the Reshaper leaves at its output path, by the way
    the run ends.  When it returns, the file holds a report document.  When
    it leaves through [sys.exit], the code is 1 and the file holds an error
    document with [exit_code] 1.  When any other exception escapes it, the
    path names what it named before: no half-reshaped content is left. *)
Theorem reshape_outcomes (p : string) (w w' : world) (r : result unit) :
  process_output p w = (w', r) ->
  match r with
  | Ret _ => exists j, ReportDocument j /\ holds w' (Path p) j
  | Raise (SystemExit code) =>
      code = 1 /\ exists msg, holds w' (Path p) (error_doc 1 msg)
  | Raise _ => w' !! Path p = w !! Path p
  end.
Proof.
  intros Hrun.
  destruct (process_output_shape p w)
    as [(outs & Houts & Hout)|[(msg & Hout)|(e & He & Hout)]];
    rewrite Hout in Hrun; injection Hrun as <- <-.
  - exists (report_doc outs). split; [constructor; exact Houts|apply lookup_insert_eq].
  - split; [reflexivity|]. exists msg. apply lookup_insert_eq.
  - destruct e; try reflexivity. exfalso. eapply He. reflexivity.
Qed.

(** X11.  On a file that holds a JSON value other than a list (a number, a
    boolean, null, an object with a member, a string with a character) the
    Reshaper raises a [TypeError] that nothing catches and writes
    nothing. *)
Theorem reshape_not_a_list (p : string) (w : world) (raw : json) :
  holds w (Path p) raw ->
  not_a_record_list raw ->
  process_output p w = (w, Raise TypeError).
Proof.
  intros Hw Hraw. apply process_output_uncaught; [|intros []].
  rewrite (process_output_body_loaded _ _ _ Hw).
  destruct Hraw; reflexivity.
Qed.

(** X12.  An empty object and an empty string at the path are taken for an
    empty list of records: the Reshaper returns and leaves the report
    document without findings. *)
Theorem reshape_empty_value (p : string) (w : world) (raw : json) :
  holds w (Path p) raw ->
  raw = JObj [] \/ raw = JStr EmptyString ->
  process_output p w
  = (<[Path p := File (JsonText (JObj [("findings", JArr [])]))]> w, Ret tt).
Proof.
  intros Hw Hraw. apply process_output_returns.
  rewrite (process_output_body_loaded _ _ _ Hw).
  destruct Hraw as [-> | ->]; reflexivity.
Qed.

(** X13.  In a list of records, when the first element that is not a
    well-formed finding is not an object at all, the Reshaper raises a
    [TypeError] that nothing catches: nothing is written, neither findings
    nor an error document. *)
Theorem reshape_type_error (p : string) (w : world) (good : list json) (bad : json)
  (rest : list json) :
  holds w (Path p) (JArr (good ++ bad :: rest)) ->
  Forall RawFinding good ->
  ~ is_object bad ->
  process_output p w = (w, Raise TypeError).
Proof.
  intros Hw Hgood Hbad. apply process_output_uncaught; [|intros []].
  rewrite (process_output_body_loaded _ _ _ Hw). simpl.
  rewrite (comprehension_raises _ _ _ _ Hgood (reshape_item_not_object _ Hbad)).
  reflexivity.
Qed.

(** X15.  The Reshaper returns on a list only when every element of the
    list is a well-formed finding; the document it leaves then has the
    normalized findings, one per record and in order. *)
Theorem reshape_returns_only_if (p : string) (w w' : world) (records : list json) :
  holds w (Path p) (JArr records) ->
  process_output p w = (w', Ret tt) ->
  Forall RawFinding records /\
  exists outs, Forall2 reshapes_to records outs /\
               w' = <[Path p := File (JsonText (JObj [("findings", JArr outs)]))]> w.
Proof.
  intros Hw Hrun.
  pose proof (process_output_body_loaded _ _ _ Hw) as Hbody. simpl in Hbody.
  destruct (comprehension reshape_item records) as [outs|e] eqn:Hc.
  - rewrite (process_output_returns _ _ _ Hbody) in Hrun. injection Hrun as <-.
    apply comprehension_ret in Hc. split.
    + clear -Hc. induction Hc as [|item out items outs Hout _ IH]; constructor;
        [exists out; exact Hout|exact IH].
    + exists outs. split; [exact Hc|reflexivity].
  - exfalso.
    destruct (comprehension_raise _ _ Hc) as (good & bad & rest & _ & _ & Hbad).
    destruct (reshape_item_raise _ _ Hbad) as [[_ ->]|[Hcaught _]].
    + rewrite (process_output_uncaught _ _ _ _ Hbody) in Hrun by (intros []).
      discriminate Hrun.
    + rewrite (process_output_caught _ _ _ _ Hbody Hcaught) in Hrun
        by (unfold holds in Hw; congruence).
      discriminate Hrun.
Qed.

(** X16.  When the Reshaper leaves through [sys.exit(1)] on a list, the
    list has a first element that is not a well-formed finding, that
    element is an object lacking a required key or with a [File] or
    [Description] that is not a string, and the error document carries the
    description of that failure. *)
Theorem reshape_exit_names_first_failure (p : string) (w w' : world)
  (records : list json) (code : Z) :
  holds w (Path p) (JArr records) ->
  process_output p w = (w', Raise (SystemExit code)) ->
  code = 1 /\
  exists good bad rest msg,
    records = (good ++ bad :: rest)%list /\
    Forall RawFinding good /\
    record_failure bad msg /\
    w' = <[Path p := File (JsonText (error_doc 1 msg))]> w.
Proof.
  intros Hw Hrun.
  pose proof (process_output_body_loaded _ _ _ Hw) as Hbody. simpl in Hbody.
  destruct (comprehension reshape_item records) as [outs|e] eqn:Hc.
  - rewrite (process_output_returns _ _ _ Hbody) in Hrun. discriminate Hrun.
  - destruct (comprehension_raise _ _ Hc) as (good & bad & rest & Hrec & Hgood & Hbad).
    destruct (reshape_item_raise _ _ Hbad) as [[_ ->]|[Hcaught Hfail]].
    + rewrite (process_output_uncaught _ _ _ _ Hbody) in Hrun by (intros []).
      discriminate Hrun.
    + rewrite (process_output_caught _ _ _ _ Hbody Hcaught) in Hrun
        by (unfold holds in Hw; congruence).
      injection Hrun as <- <-. split; [reflexivity|].
      exists good, bad, rest, (exn_str e). repeat split; assumption.
Qed.

(** ** Further properties of the main block *)

(** X17.  A whole run that succeeds: after a valid command line and
    source, when the external process exits with 0 or 1 and leaves at the
    report path a list of well-formed findings, the script ends with status
    0 and [read_output_file] reads at the report path an object whose
    [findings] member is the list of the normalized findings. *)
Theorem main_success (argv : list string) (args : Namespace) (source : string)
  (n : node) (w w1 : world) (cp : CompletedProcess) (records : list json) :
  argparse_parse argv = Parsed args ->
  ns_source args = Some source ->
  source <> EmptyString ->
  w !! Path source = Some n ->
  subprocess_run (gitleaks_args args) w = (w1, Ret cp) ->
  cp_returncode cp = 0 \/ cp_returncode cp = 1 ->
  holds w1 (Path (ns_report_path args)) (JArr records) ->
  Forall RawFinding records ->
  exists outs,
    Forall2 reshapes_to records outs /\
    snd (main argv w) = Ret tt /\
    exit_status (snd (main argv w)) = 0 /\
    read_output_file (ns_report_path args) (fst (main argv w))
    = (fst (main argv w), Ret (Some (JObj [("findings", JArr outs)]))).
Proof.
  intros Hparse Hs Hne Hw Hrun Hrc Hrep Hrecords.
  rewrite (main_reaches_invoker _ _ _ Hparse (validate_source_ok _ _ _ _ Hs Hne Hw)).
  unfold bind at 1 2 3 4.
  rewrite (run_gitleaks_continues _ (ns_report_path args) _ _ _ Hrun Hrc).
  destruct (comprehension_ok _ Hrecords) as (outs & Houts & Hc).
  exists outs. split; [exact Houts|].
  assert (Hout : process_output (ns_report_path args) w1
    = (<[Path (ns_report_path args) := File (JsonText (report_doc outs))]> w1, Ret tt)).
  { apply process_output_returns.
    rewrite (process_output_body_loaded _ _ _ Hrep). simpl. rewrite Hc. reflexivity. }
  rewrite Hout. split; [reflexivity|]. split; [reflexivity|].
  unfold read_output_file, bind, path_exists, load_from, ret. simpl.
  rewrite !lookup_insert_eq. reflexivity.
Qed.

(** X18.  The validation of the source returns only for a source that is
    given, is not empty and names something on disk, and then it leaves the
    world as it was. *)
Theorem validate_source_returns_only_if (args : Namespace) (w w' : world) :
  validate_source args w = (w', Ret tt) ->
  w' = w /\
  exists source n,
    ns_source args = Some source /\ source <> EmptyString /\ w !! Path source = Some n.
Proof.
  unfold validate_source, source_or_None.
  destruct (ns_source args) as [[|c source]|] eqn:Hs; simpl.
  - unfold bind, sys_exit, raise.
    destruct (write_error_to_file "output.json" _ w) as [w0 [[]|e]]; discriminate.
  - unfold bind, path_exists.
    destruct (w !! String c source) as [n|] eqn:Hw; simpl.
    + intros [= <-]. split; [reflexivity|].
      exists (String c source), n. repeat split; [discriminate|exact Hw].
    + unfold sys_exit, raise.
      destruct (write_error_to_file "output.json" _ w) as [w0 [[]|e]]; discriminate.
  - unfold bind, sys_exit, raise.
    destruct (write_error_to_file "output.json" _ w) as [w0 [[]|e]]; discriminate.
Qed.

End ScriptMore.

(** ** Concrete runs for the further properties *)

Section RunsMore.
Import PyStr.

Lemma write_error_read_back_witness :
  (write_error_to_file "report.json" (mkErrorModel 3 "boom");;
   read_output_file "report.json")%py (world_report (JArr [sample_record]))
  = (<["report.json" := File (JsonText (ErrorModel_model_dump (mkErrorModel 3 "boom")))]>
       (world_report (JArr [sample_record])),
     Ret (Some (JObj [("exit_code", JInt 3); ("error_message", JStr "boom")]))).
Proof.
  apply (write_error_read_back "report.json" (mkErrorModel 3 "boom")
           (world_report (JArr [sample_record]))).
  vm_compute. discriminate.
Defined.

Lemma write_error_overwrites_witness :
  (write_error_to_file "report.json" (mkErrorModel 3 "boom");;
   write_error_to_file "report.json" (mkErrorModel 1 "'File'"))%py world_src
  = write_error_to_file "report.json" (mkErrorModel 1 "'File'") world_src.
Proof.
  apply (write_error_overwrites "report.json" (mkErrorModel 3 "boom")
           (mkErrorModel 1 "'File'") world_src).
  vm_compute. discriminate.
Defined.

Lemma write_error_directory_witness :
  write_error_to_file "src" (mkErrorModel 3 "boom") world_src
  = (world_src, Raise (IsADirectoryError "src")).
Proof.
  apply (write_error_directory "src" (mkErrorModel 3 "boom") world_src).
  reflexivity.
Defined.

Lemma run_gitleaks_spawn_failure_witness :
  run_gitleaks (H := libs_with scanner_missing) ["gitleaks"; "detect"] "report.json" world_src
  = (world_src, Raise (FileNotFoundError "gitleaks")).
Proof.
  apply (run_gitleaks_spawn_failure (H := libs_with scanner_missing)
           ["gitleaks"; "detect"] "report.json" world_src world_src
           (FileNotFoundError "gitleaks")).
  - reflexivity.
  - discriminate.
Defined.

Lemma blank_stderr_message_witness :
  run_gitleaks (H := libs_with (scanner_exits 3 (" " +:+ LF)))
    ["gitleaks"; "detect"] "report.json" world_src
  = (<["report.json" := File (JsonText (error_doc 3 "Gitleaks scan failed: "))]> world_src,
     Raise (SystemExit 3)).
Proof.
  apply (blank_stderr_message (H := libs_with (scanner_exits 3 (" " +:+ LF)))
           ["gitleaks"; "detect"] "report.json" world_src world_src
           (mkCompletedProcess 3 EmptyString (" " +:+ LF))).
  - reflexivity.
  - simpl. lia.
  - simpl. lia.
  - discriminate.
  - reflexivity.
  - vm_compute. discriminate.
Defined.

(** The marker ends the standard error: trimming takes its last space. *)
Lemma unknown_flag_without_marker_witness :
  run_gitleaks (H := libs_with (scanner_exits 126 "Error: unknown flag: "))
    ["gitleaks"; "detect"] "report.json" world_src
  = (<["report.json" := File (JsonText
         (error_doc 2 "Gitleaks scan failed: unknown argument 'Error: unknown flag:'."))]>
       world_src,
     Raise (SystemExit 126)).
Proof.
  apply (unknown_flag_without_marker (H := libs_with (scanner_exits 126 "Error: unknown flag: "))
           ["gitleaks"; "detect"] "report.json" world_src world_src
           (mkCompletedProcess 126 EmptyString "Error: unknown flag: ")
           "Error: unknown flag:" EmptyString).
  - reflexivity.
  - simpl. lia.
  - simpl. lia.
  - reflexivity.
  - reflexivity.
  - reflexivity.
  - reflexivity.
  - left. reflexivity.
  - vm_compute. discriminate.
Defined.

Lemma invoker_failure_documented_witness :
  let L := libs_with (scanner_exits 126 unknown_flag_stderr) in
  exists code msg,
    run_gitleaks (H := L) ["gitleaks"; "detect"; "--jit"] "report.json" world_src
    = (<["report.json" := File (JsonText (error_doc code ("Gitleaks scan failed: " +:+ msg)))]>
         world_src,
       Raise (SystemExit 126)) /\
    ((code = 2 /\
      exists token, contains LF token = false
                    /\ msg = "unknown argument '" +:+ token +:+ "'.") \/
     (code = 126 /\ contains "unknown flag" msg = false)).
Proof.
  intros L.
  apply (invoker_failure_documented (H := L) ["gitleaks"; "detect"; "--jit"]
           "report.json" world_src world_src
           (mkCompletedProcess 126 EmptyString unknown_flag_stderr)).
  - reflexivity.
  - simpl. lia.
  - simpl. lia.
  - vm_compute. discriminate.
Defined.

Lemma main_stops_at_invoker_witness :
  let L := libs_with (scanner_reports "report.json" (JArr [sample_record]) 3) in
  snd (main (H := L) [] world_src) = Raise (SystemExit 3) /\
  exit_status (snd (main (H := L) [] world_src)) = 3 /\
  exists code msg,
    fst (main (H := L) [] world_src)
    = <["report.json" := File (JsonText (error_doc code msg))]>
        (world_report (JArr [sample_record])).
Proof.
  intros L.
  apply (main_stops_at_invoker (H := L) [] (sample_args (Some "src") "report.json")
           "src" Dir world_src (world_report (JArr [sample_record]))
           (mkCompletedProcess 3 EmptyString EmptyString)).
  - reflexivity.
  - reflexivity.
  - discriminate.
  - reflexivity.
  - reflexivity.
  - simpl. lia.
  - simpl. lia.
  - vm_compute. discriminate.
Defined.

(** The second record of the report has a number for [File]. *)
Lemma reshape_outcomes_witness :
  let L := libs_with (scanner_exits 1 EmptyString) in
  let w := world_report (JArr [sample_record; record_bad_file; JNull]) in
  1 = 1 /\
  exists msg,
    holds (fst (process_output (H := L) "report.json" w)) "report.json" (error_doc 1 msg).
Proof.
  intros L w.
  apply (reshape_outcomes (H := L) "report.json" w
           (fst (process_output (H := L) "report.json" w)) (Raise (SystemExit 1))).
  reflexivity.
Defined.

(** The report holds an error document of an earlier run. *)
Lemma reshape_not_a_list_witness :
  let L := libs_with (scanner_exits 0 EmptyString) in
  process_output (H := L) "report.json" (world_report (error_doc 1 "'File'"))
  = (world_report (error_doc 1 "'File'"), Raise TypeError).
Proof.
  intros L.
  apply (reshape_not_a_list (H := L) "report.json"
           (world_report (error_doc 1 "'File'")) (error_doc 1 "'File'")).
  - reflexivity.
  - constructor.
Defined.

Lemma reshape_empty_value_witness :
  let L := libs_with (scanner_exits 0 EmptyString) in
  process_output (H := L) "report.json" (world_report (JObj []))
  = (<["report.json" := File (JsonText (JObj [("findings", JArr [])]))]>
       (world_report (JObj [])), Ret tt).
Proof.
  intros L.
  apply (reshape_empty_value (H := L) "report.json" (world_report (JObj [])) (JObj [])).
  - reflexivity.
  - left. reflexivity.
Defined.

Lemma reshape_type_error_witness :
  let L := libs_with (scanner_exits 1 EmptyString) in
  process_output (H := L) "report.json"
    (world_report (JArr [sample_record; JNull; record_without_end]))
  = (world_report (JArr [sample_record; JNull; record_without_end]), Raise TypeError).
Proof.
  intros L.
  apply (reshape_type_error (H := L) "report.json"
           (world_report (JArr [sample_record; JNull; record_without_end]))
           [sample_record] JNull [record_without_end]).
  - reflexivity.
  - constructor; [|constructor].
    exists sample_finding. apply sample_record_reshapes.
  - intros [members Hm]. discriminate Hm.
Defined.

Lemma reshape_returns_only_if_witness :
  let L := libs_with (scanner_exits 1 EmptyString) in
  let w := world_report (JArr [sample_record]) in
  Forall (RawFinding (H := L)) [sample_record] /\
  exists outs,
    Forall2 (reshapes_to (H := L)) [sample_record] outs /\
    fst (process_output (H := L) "report.json" w)
    = <["report.json" := File (JsonText (JObj [("findings", JArr outs)]))]> w.
Proof.
  intros L w.
  apply (reshape_returns_only_if (H := L) "report.json" w
           (fst (process_output (H := L) "report.json" w)) [sample_record]).
  - reflexivity.
  - reflexivity.
Defined.

Lemma reshape_exit_names_first_failure_witness :
  let L := libs_with (scanner_exits 1 EmptyString) in
  let w := world_report (JArr [sample_record; record_bad_file; JNull]) in
  1 = 1 /\
  exists good bad rest msg,
    [sample_record; record_bad_file; JNull] = (good ++ bad :: rest)%list /\
    Forall (RawFinding (H := L)) good /\
    record_failure (H := L) bad msg /\
    fst (process_output (H := L) "report.json" w)
    = <["report.json" := File (JsonText (error_doc 1 msg))]> w.
Proof.
  intros L w.
  apply (reshape_exit_names_first_failure (H := L) "report.json" w
           (fst (process_output (H := L) "report.json" w))
           [sample_record; record_bad_file; JNull] 1).
  - reflexivity.
  - reflexivity.
Defined.

Lemma main_success_witness :
  let L := libs_with (scanner_reports "report.json" (JArr [sample_record]) 1) in
  exists outs,
    Forall2 (reshapes_to (H := L)) [sample_record] outs /\
    snd (main (H := L) [] world_src) = Ret tt /\
    exit_status (snd (main (H := L) [] world_src)) = 0 /\
    read_output_file "report.json" (fst (main (H := L) [] world_src))
    = (fst (main (H := L) [] world_src), Ret (Some (JObj [("findings", JArr outs)]))).
Proof.
  intros L.
  apply (main_success (H := L) [] (sample_args (Some "src") "report.json")
           "src" Dir world_src (world_report (JArr [sample_record]))
           (mkCompletedProcess 1 EmptyString EmptyString) [sample_record]).
  - reflexivity.
  - reflexivity.
  - discriminate.
  - reflexivity.
  - reflexivity.
  - right. reflexivity.
  - reflexivity.
  - constructor; [|constructor].
    exists sample_finding. apply sample_record_reshapes.
Defined.

Lemma validate_source_returns_only_if_witness :
  world_src = world_src /\
  exists source n,
    ns_source (sample_args (Some "src") "report.json") = Some source
    /\ source <> EmptyString /\ world_src !! Path source = Some n.
Proof.
  apply (validate_source_returns_only_if (sample_args (Some "src") "report.json")
           world_src world_src).
  reflexivity.
Defined.

(** The failing record of the run above and its message. *)
Example bad_file_run :
  process_output (H := libs_with (scanner_exits 1 EmptyString)) "report.json"
    (world_report (JArr [sample_record; record_bad_file; JNull]))
  = (world_report (error_doc 1 "1 validation error for Finding"), Raise (SystemExit 1)).
Proof. vm_compute. reflexivity. Qed.

End RunsMore.
